(** * MediolanoMarketplace: registry, policy store and bulk settlement

    A shallow embedding of the Cairo contract
    [onchain/ip_marketplace_bulk_order/src/lib.cairo] and the properties of
    its bulk purchase, registration and commission operations.

    - [u256], [felt252] and [ContractAddress] values are binary naturals;
      the checked [u256] arithmetic of Cairo panics when a result leaves the
      256-bit range and is written out as such.
    - A [LegacyMap] is a finite map read with the zero default.
    - Contract code runs in a state-and-panic monad over a [World]: the
      contract storage, the state of the token contracts it calls, and the
      chronological trace of external calls and emitted events.  A panic keeps
      the world reached so far; [transaction] is the entry point as Starknet
      executes it, where a panic reverts everything the call did.
    - A token contract acts on its own ledger only; it does not call back
      into the marketplace. *)

From stdpp Require Import gmap list.
From Stdlib Require Import NArith Lia.

Local Open Scope N_scope.

(** ** Values *)

Abbreviation ContractAddress := N (only parsing).
Abbreviation felt252 := N (only parsing).
Abbreviation u256 := N (only parsing).

Definition U256_MAX : u256 := 2 ^ 256 - 1.

(** [contract_address_const::<0>()], the default of an unwritten slot. *)
Definition ZERO_ADDRESS : ContractAddress := 0.

(** The failure kinds of the specification.  In the source they are panics:
    [Unauthorized] is Ownable's owner assertion, [SystemPaused] is
    Pausable's [assert_not_paused], [UnsupportedCurrency] is
    "Invalid payment currency", [UnregisteredAsset] is "Unregistered asset",
    [AssetAlreadyRegistered] is "Asset already registered",
    [InvalidCommissionRate] is "Invalid commission rate",
    [InvalidAssetOwnership] is "Invalid asset ownership",
    [ArithmeticOverflow] is the panic of a checked [u256] operation and
    [TransferFailed] is a reverted call into the token contract. *)
Inductive Error : Set :=
  | Unauthorized
  | SystemPaused
  | UnsupportedCurrency
  | UnregisteredAsset
  | AssetAlreadyRegistered
  | InvalidCommissionRate
  | InvalidAssetOwnership
  | ArithmeticOverflow
  | TransferFailed.

Definition u256_add (a b : u256) : Error + u256 :=
  if a + b <=? U256_MAX then inr (a + b) else inl ArithmeticOverflow.

Definition u256_mul (a b : u256) : Error + u256 :=
  if a * b <=? U256_MAX then inr (a * b) else inl ArithmeticOverflow.

(** ** Data model *)

Record DigitalAsset : Set := {
  seller : ContractAddress;
  asset_id : u256;
  price : u256;
  metadata_ipfs_hash : felt252
}.

Record OwnableStorage : Set := { Ownable_owner : ContractAddress }.
Record PausableStorage : Set := { Pausable_paused : bool }.

Record Storage : Type := {
  ownable : OwnableStorage;
  pausable : PausableStorage;
  owner : ContractAddress;
  commission_rate : u256;
  supported_currencies : gmap ContractAddress bool;
  asset_metadata : gmap u256 felt252;
  asset_ownership : gmap u256 ContractAddress;
  asset_registered : gmap u256 bool
}.

Inductive Event : Set :=
  | AssetPurchased (asset_id : u256) (buyer seller : ContractAddress) (price : u256)
  | AssetRegistered (asset_id : u256) (seller : ContractAddress) (price : u256).

(** What a call does to the outside, in the order it happens: a
    [transferFrom] sent to a token contract, or an emitted event. *)
Inductive Effect : Set :=
  | ECall (currency sender recipient : ContractAddress) (amount : u256)
  | EEmit (ev : Event).

(** Reading an entry of a [LegacyMap]: a slot never written holds zero. *)
Definition read_flag (m : gmap N bool) (k : N) : bool := default false (m !! k).
Definition read_slot (m : gmap N N) (k : N) : N := default 0 (m !! k).

(** Storage writes, one per field the contract writes. *)
Definition write_commission_rate (v : N) (s : Storage) : Storage :=
  {| ownable := ownable s; pausable := pausable s; owner := owner s;
     commission_rate := v;
     supported_currencies := supported_currencies s;
     asset_metadata := asset_metadata s;
     asset_ownership := asset_ownership s;
     asset_registered := asset_registered s |}.

Definition write_supported_currencies (k : N) (v : bool) (s : Storage) : Storage :=
  {| ownable := ownable s; pausable := pausable s; owner := owner s;
     commission_rate := commission_rate s;
     supported_currencies := <[k := v]> (supported_currencies s);
     asset_metadata := asset_metadata s;
     asset_ownership := asset_ownership s;
     asset_registered := asset_registered s |}.

Definition write_asset_metadata (k v : N) (s : Storage) : Storage :=
  {| ownable := ownable s; pausable := pausable s; owner := owner s;
     commission_rate := commission_rate s;
     supported_currencies := supported_currencies s;
     asset_metadata := <[k := v]> (asset_metadata s);
     asset_ownership := asset_ownership s;
     asset_registered := asset_registered s |}.

Definition write_asset_ownership (k v : N) (s : Storage) : Storage :=
  {| ownable := ownable s; pausable := pausable s; owner := owner s;
     commission_rate := commission_rate s;
     supported_currencies := supported_currencies s;
     asset_metadata := asset_metadata s;
     asset_ownership := <[k := v]> (asset_ownership s);
     asset_registered := asset_registered s |}.

Definition write_asset_registered (k : N) (v : bool) (s : Storage) : Storage :=
  {| ownable := ownable s; pausable := pausable s; owner := owner s;
     commission_rate := commission_rate s;
     supported_currencies := supported_currencies s;
     asset_metadata := asset_metadata s;
     asset_ownership := asset_ownership s;
     asset_registered := <[k := v]> (asset_registered s) |}.

(** Storage of a freshly deployed instance: the contract has no constructor,
    so every slot holds its default. *)
Definition deployed : Storage :=
  {| ownable := {| Ownable_owner := 0 |};
     pausable := {| Pausable_paused := false |};
     owner := 0; commission_rate := 0;
     supported_currencies := ∅; asset_metadata := ∅;
     asset_ownership := ∅; asset_registered := ∅ |}.

(** ** The token interface

    [IERC20Dispatcher.transferFrom] is a call into another contract.  Its
    state is the ledger [L]; the call either reverts ([None]) or returns a
    [bool] together with the ledger it leaves.  The token is given by the
    contract address the dispatcher is built from.  A reverted call is the
    failure of the specification's value-transfer capability, a call that
    returns is its success. *)
Class IERC20 (L : Type) := {
  transferFrom :
    forall (contract_address sender recipient : ContractAddress) (amount : u256),
      L -> option (bool * L)
}.

(** ** Worlds and the execution monad *)

Record World (L : Type) : Type := {
  storage : Storage;
  ledger : L;
  trace : list Effect
}.
Arguments storage {L} _.
Arguments ledger {L} _.
Arguments trace {L} _.
Arguments Build_World {L} _ _ _.

Inductive Outcome (L A : Type) : Type :=
  | Done (a : A) (w : World L)
  | Panicked (e : Error) (w : World L).
Arguments Done {L A} _ _.
Arguments Panicked {L A} _ _.

Definition M (L A : Type) : Type := World L -> Outcome L A.

Definition ret {L A} (a : A) : M L A := fun w => Done a w.

Definition bind {L A B} (m : M L A) (k : A -> M L B) : M L B :=
  fun w =>
    match m w with
    | Done a w' => k a w'
    | Panicked e w' => Panicked e w'
    end.

Notation "x <- m ;; k" := (bind m (fun x => k))
  (at level 100, m at next level, right associativity).
Notation "m ;; k" := (bind m (fun _ => k))
  (at level 100, right associativity).

Definition panic {L A} (e : Error) : M L A := fun w => Panicked e w.

(** [assert!(cond, msg)] *)
Definition assert {L} (cond : bool) (e : Error) : M L unit :=
  if cond then ret tt else panic e.

(** Result of a checked arithmetic operation. *)
Definition checked {L} (r : Error + u256) : M L u256 :=
  match r with
  | inr v => ret v
  | inl e => panic e
  end.

Definition read {L A} (f : Storage -> A) : M L A :=
  fun w => Done (f (storage w)) w.

Definition write {L} (f : Storage -> Storage) : M L unit :=
  fun w => Done tt (Build_World (f (storage w)) (ledger w) (trace w)).

Definition emit {L} (ev : Event) : M L unit :=
  fun w => Done tt (Build_World (storage w) (ledger w) (trace w ++ [EEmit ev])).

(** A [for x in xs.span()] loop. *)
Fixpoint for_each {L A} (body : A -> M L unit) (xs : list A) : M L unit :=
  match xs with
  | [] => ret tt
  | x :: rest => body x ;; for_each body rest
  end.

(** An external entry point as the sequencer runs it: when the call panics
    the transaction is reverted, and storage, token balances and events are
    those from before the call. *)
Definition transaction {L A} (m : M L A) (w : World L) : (Error + A) * World L :=
  match m w with
  | Done a w' => (inr a, w')
  | Panicked e _ => (inl e, w)
  end.

(** The world a run ends in, whether it returned or panicked. *)
Definition final {L A} (o : Outcome L A) : World L :=
  match o with
  | Done _ w => w
  | Panicked _ w => w
  end.

(** ** The contract *)

Section Contract.
Context {L : Type} `{Token : IERC20 L}.

(** [currency_contract.transferFrom(sender, recipient, amount)]: the call
    is recorded, a revert of the token propagates as a panic, and the
    returned [bool] is handed back to the caller. *)
Definition call_transferFrom (currency sender recipient : ContractAddress)
    (amount : u256) : M L bool :=
  fun w =>
    let w1 := Build_World (storage w) (ledger w)
                          (trace w ++ [ECall currency sender recipient amount]) in
    match transferFrom currency sender recipient amount (ledger w) with
    | Some (ok, l') => Done ok (Build_World (storage w) l' (trace w1))
    | None => Panicked TransferFailed w1
    end.

(** [self.pausable.assert_not_paused()] of OpenZeppelin's
    PausableComponent: panics when [Pausable_paused] is set. *)
Definition assert_not_paused : M L unit :=
  paused <- read (fun s => Pausable_paused (pausable s)) ;;
  assert (negb paused) SystemPaused.

(** [self.ownable.assert_only_owner()] of OpenZeppelin's OwnableComponent:
    the caller is not the zero address and is the owner the component
    holds in [Ownable_owner]. *)
Definition is_owner (s : Storage) (caller : ContractAddress) : bool :=
  negb (caller =? ZERO_ADDRESS) && (caller =? Ownable_owner (ownable s)).

Definition assert_only_owner (caller : ContractAddress) : M L unit :=
  ok <- read (fun s => is_owner s caller) ;;
  assert ok Unauthorized.

(** *** InternalFunctions *)

Fixpoint calculate_total_price_from (total : u256) (assets : list DigitalAsset)
    : M L u256 :=
  match assets with
  | [] => ret total
  | asset :: rest =>
      registered <- read (fun s => read_flag (asset_registered s) (asset_id asset)) ;;
      assert registered UnregisteredAsset ;;
      total' <- checked (u256_add total (price asset)) ;;
      calculate_total_price_from total' rest
  end.

Definition calculate_total_price (assets : list DigitalAsset) : M L u256 :=
  calculate_total_price_from 0 assets.

Definition pay_seller (currency buyer : ContractAddress) (asset : DigitalAsset)
    : M L unit :=
  let seller_amount := price asset in
  call_transferFrom currency buyer (seller asset) seller_amount ;;
  emit (AssetPurchased (asset_id asset) buyer (seller asset) seller_amount).

Definition process_payments (assets : list DigitalAsset) (total_price : u256)
    (currency buyer : ContractAddress) : M L unit :=
  commission_rate <- read commission_rate ;;
  product <- checked (u256_mul total_price commission_rate) ;;
  let commission := product / 10000 in
  mediolano_address <- read owner ;;
  call_transferFrom currency buyer mediolano_address commission ;;
  for_each (pay_seller currency buyer) assets.

Definition reassign (buyer : ContractAddress) (asset : DigitalAsset) : M L unit :=
  current_owner <- read (fun s => read_slot (asset_ownership s) (asset_id asset)) ;;
  assert (current_owner =? seller asset) InvalidAssetOwnership ;;
  write (write_asset_ownership (asset_id asset) buyer).

Definition transfer_asset_ownership (assets : list DigitalAsset)
    (buyer : ContractAddress) : M L unit :=
  for_each (reassign buyer) assets.

(** *** MediolanoMarketplaceImpl

    [caller] is what [get_caller_address()] returns during the call. *)

Definition purchase_multiple_assets (caller : ContractAddress)
    (assets : list DigitalAsset) (payment_currency : ContractAddress) : M L unit :=
  assert_not_paused ;;
  supported <- read (fun s => read_flag (supported_currencies s) payment_currency) ;;
  assert supported UnsupportedCurrency ;;
  let buyer := caller in
  total_price <- calculate_total_price assets ;;
  process_payments assets total_price payment_currency buyer ;;
  transfer_asset_ownership assets buyer.

Definition register_digital_asset (caller : ContractAddress) (asset_id : u256)
    (seller : ContractAddress) (price : u256) (metadata_hash : felt252) : M L unit :=
  assert_only_owner caller ;;
  registered <- read (fun s => read_flag (asset_registered s) asset_id) ;;
  assert (negb registered) AssetAlreadyRegistered ;;
  write (write_asset_metadata asset_id metadata_hash) ;;
  write (write_asset_ownership asset_id seller) ;;
  write (write_asset_registered asset_id true) ;;
  emit (AssetRegistered asset_id seller price).

Definition set_commission_rate (caller : ContractAddress) (rate : u256) : M L unit :=
  assert_only_owner caller ;;
  assert (rate <? 10000) InvalidCommissionRate ;;
  write (write_commission_rate rate).

Definition add_supported_currency (caller currency : ContractAddress) : M L unit :=
  assert_only_owner caller ;;
  write (write_supported_currencies currency true).

Definition remove_supported_currency (caller currency : ContractAddress) : M L unit :=
  assert_only_owner caller ;;
  write (write_supported_currencies currency false).

End Contract.

(** The view functions take a snapshot of the storage. *)
Definition get_asset_metadata (s : Storage) (asset_id : u256) : felt252 :=
  read_slot (asset_metadata s) asset_id.

Definition get_commission_rate (s : Storage) : u256 := commission_rate s.

Definition is_currency_supported (s : Storage) (currency : ContractAddress) : bool :=
  read_flag (supported_currencies s) currency.

(** ** A token and a marketplace instance for the examples

    Balances per (token, account).  [transferFrom] reverts when the sender
    holds less than the amount and returns [true] otherwise. *)
Definition balance_of (bal : gmap (N * N) N) (token account : N) : N :=
  default 0 (bal !! (token, account)).

Definition simple_transferFrom (token sender recipient amount : N)
    (bal : gmap (N * N) N) : option (bool * gmap (N * N) N) :=
  if amount <=? balance_of bal token sender then
    let bal1 := <[(token, sender) := balance_of bal token sender - amount]> bal in
    let bal2 := <[(token, recipient) := balance_of bal1 token recipient + amount]> bal1 in
    Some (true, bal2)
  else None.

#[export] Instance SimpleToken : IERC20 (gmap (N * N) N) :=
  {| transferFrom := simple_transferFrom |}.

Module Fixture.

Definition ADMIN : N := 1.
Definition STRK : N := 5.
Definition ALICE : N := 10.
Definition BOB : N := 11.
Definition CAROL : N := 12.
Definition BUYER : N := 20.

(** Rate 500, one supported currency, assets 1, 2 and 3 registered to
    Alice, Bob and Carol. *)
Definition market : Storage :=
  {| ownable := {| Ownable_owner := ADMIN |};
     pausable := {| Pausable_paused := false |};
     owner := 0;
     commission_rate := 500;
     supported_currencies := {[ STRK := true ]};
     asset_metadata := {[ 1 := 101; 2 := 102; 3 := 103 ]};
     asset_ownership := {[ 1 := ALICE; 2 := BOB; 3 := CAROL ]};
     asset_registered := {[ 1 := true; 2 := true; 3 := true ]} |}.

Definition item (s id p : N) : DigitalAsset :=
  {| seller := s; asset_id := id; price := p; metadata_ipfs_hash := 100 + id |}.

Definition batch : list DigitalAsset :=
  [item ALICE 1 100; item BOB 2 250; item CAROL 3 150].

Definition world (funds : N) : World (gmap (N * N) N) :=
  {| storage := market; ledger := {[ (STRK, BUYER) := funds ]}; trace := [] |}.

(** The same market with the pause flag set. *)
Definition paused_market : Storage :=
  {| ownable := ownable market;
     pausable := {| Pausable_paused := true |};
     owner := owner market;
     commission_rate := commission_rate market;
     supported_currencies := supported_currencies market;
     asset_metadata := asset_metadata market;
     asset_ownership := asset_ownership market;
     asset_registered := asset_registered market |}.

Definition paused_world : World (gmap (N * N) N) :=
  {| storage := paused_market; ledger := {[ (STRK, BUYER) := 1000 ]}; trace := [] |}.

(** A currency that was never added. *)
Definition DOGE : N := 6.

(** Two registered items whose prices add up to one more than a [u256]
    holds. *)
Definition huge_batch : list DigitalAsset :=
  [item ALICE 1 U256_MAX; item BOB 2 1].

(** Asset 2 belongs to Bob; this batch names Alice as its seller. *)
Definition stale_batch : list DigitalAsset :=
  [item ALICE 1 100; item ALICE 2 250].

(** Asset 1 twice: once from Alice, once from the buyer. *)
Definition repeated_batch : list DigitalAsset :=
  [item ALICE 1 100; item BUYER 1 50].

(** A world right after deployment. *)
Definition fresh_world : World (gmap (N * N) N) :=
  {| storage := deployed; ledger := {[ (STRK, BUYER) := 1000 ]}; trace := [] |}.

(** The world after the owner registered asset 4 for Alice. *)
Definition with_asset_4 : World (gmap (N * N) N) :=
  final (register_digital_asset ADMIN 4 ALICE 70 104 (world 1000)).

(** The worlds the settlement of [batch] goes through when the buyer can
    pay the commission and Alice but not Bob. *)
Definition after_commission : World (gmap (N * N) N) :=
  final (call_transferFrom STRK BUYER 0 25 (world 300)).

Definition after_alice : World (gmap (N * N) N) :=
  final (for_each (pay_seller STRK BUYER) [item ALICE 1 100] after_commission).

(** One registered item whose price fits a [u256] while its product with
    the commission rate does not. *)
Definition pricey_batch : list DigitalAsset :=
  [item ALICE 1 (2 ^ 255)].

(** Asset 1 twice, both times from Alice. *)
Definition twice_batch : list DigitalAsset :=
  [item ALICE 1 100; item ALICE 1 100].

(** A caller who is not the owner. *)
Definition MALLORY : N := 66.

(** Asset 9 was never registered. *)
Definition ghost_batch : list DigitalAsset :=
  [item ALICE 1 100; item ALICE 9 10].

(** The example world after the settlement of [batch]. *)
Definition settled_world : World (gmap (N * N) N) :=
  snd (transaction (purchase_multiple_assets BUYER batch STRK) (world 1000)).

End Fixture.

(** ** Reasoning about runs *)

Definition sum_prices (assets : list DigitalAsset) : N :=
  foldr (fun asset acc => price asset + acc) 0 assets.

Definition all_registered (s : Storage) (assets : list DigitalAsset) : bool :=
  forallb (fun asset => read_flag (asset_registered s) (asset_id asset)) assets.

(** The two effects of paying one item, and the effects of a whole
    payment pass. *)
Definition seller_effects (currency buyer : N) (asset : DigitalAsset) : list Effect :=
  [ECall currency buyer (seller asset) (price asset);
   EEmit (AssetPurchased (asset_id asset) buyer (seller asset) (price asset))].

Definition payment_effects (currency buyer treasury commission : N)
    (assets : list DigitalAsset) : list Effect :=
  ECall currency buyer treasury commission
    :: flat_map (seller_effects currency buyer) assets.

(** The ownership map after the reassignment pass wrote every item. *)
Definition reassigned (buyer : N) (assets : list DigitalAsset) (s : Storage) : Storage :=
  foldl (fun st asset => write_asset_ownership (asset_id asset) buyer st) s assets.

(** Everything in the storage but the ownership map. *)
Definition frame (s : Storage) :=
  (ownable s, pausable s, owner s, commission_rate s,
   supported_currencies s, asset_metadata s, asset_registered s).

(** The failures a settlement can end in. *)
Definition purchase_failure (e : Error) : Prop :=
  match e with
  | SystemPaused | UnsupportedCurrency | UnregisteredAsset
  | ArithmeticOverflow | TransferFailed | InvalidAssetOwnership => True
  | Unauthorized | AssetAlreadyRegistered | InvalidCommissionRate => False
  end.

Definition calls_of (t : list Effect) : list Effect :=
  List.filter (fun e => match e with ECall _ _ _ _ => true | EEmit _ => false end) t.

(** *** Public calls and reachable worlds *)

Inductive Call : Type :=
  | CallPurchase (caller : N) (assets : list DigitalAsset) (payment_currency : N)
  | CallRegister (caller asset_id seller price metadata_hash : N)
  | CallSetCommissionRate (caller rate : N)
  | CallAddCurrency (caller currency : N)
  | CallRemoveCurrency (caller currency : N).

Section Notions.
Context {L : Type} `{Token : IERC20 L}.

(** The state-changing entry points of [IMediolanoMarketplace]; the three
    view functions only read.  The Ownable and Pausable components are
    embedded as storage only, none of their entry points is exposed. *)
Definition dispatch (c : Call) : M L unit :=
  match c with
  | CallPurchase caller assets payment_currency =>
      purchase_multiple_assets caller assets payment_currency
  | CallRegister caller asset_id seller price metadata_hash =>
      register_digital_asset caller asset_id seller price metadata_hash
  | CallSetCommissionRate caller rate => set_commission_rate caller rate
  | CallAddCurrency caller currency => add_supported_currency caller currency
  | CallRemoveCurrency caller currency => remove_supported_currency caller currency
  end.

(** [evolves w w']: [w'] comes from [w] by transactions on the
    marketplace, interleaved with whatever else happens to the token
    ledgers. *)
Inductive evolves (w : World L) : World L -> Prop :=
  | evolves_refl : evolves w w
  | evolves_call c w1 :
      evolves w w1 -> evolves w (snd (transaction (dispatch c) w1))
  | evolves_ledger l w1 :
      evolves w w1 -> evolves w (Build_World (storage w1) l (trace w1)).

Definition reachable (w : World L) : Prop :=
  exists w0, storage w0 = deployed /\ evolves w0 w.

(** *** Ways a settlement step can panic

    One constructor per step of [purchase_multiple_assets] that can
    panic: the two gates, the registration check and the checked sum of
    the pricing pass, the checked product of the commission, a revert of
    the commission transfer, a revert of the transfer to a seller, and the
    ownership re-check of an item.  A transfer that returns [false] is not
    among them: the contract drops the boolean and goes on. *)
Inductive step_fails (caller : N) (assets : list DigitalAsset)
    (payment_currency : N) (w : World L) : Prop :=
  | pause_gate_fails :
      Pausable_paused (pausable (storage w)) = true ->
      step_fails caller assets payment_currency w
  | currency_gate_fails :
      read_flag (supported_currencies (storage w)) payment_currency = false ->
      step_fails caller assets payment_currency w
  | registration_check_fails :
      all_registered (storage w) assets = false ->
      step_fails caller assets payment_currency w
  | price_sum_overflows :
      U256_MAX < sum_prices assets ->
      step_fails caller assets payment_currency w
  | commission_overflows :
      U256_MAX < sum_prices assets * commission_rate (storage w) ->
      step_fails caller assets payment_currency w
  | commission_transfer_fails :
      transferFrom payment_currency caller (owner (storage w))
        (sum_prices assets * commission_rate (storage w) / 10000) (ledger w) = None ->
      step_fails caller assets payment_currency w
  | seller_transfer_fails pre asset post ok w0 w1 :
      assets = pre ++ asset :: post ->
      call_transferFrom payment_currency caller (owner (storage w))
        (sum_prices assets * commission_rate (storage w) / 10000) w = Done ok w0 ->
      for_each (pay_seller payment_currency caller) pre w0 = Done tt w1 ->
      transferFrom payment_currency caller (seller asset) (price asset) (ledger w1) = None ->
      step_fails caller assets payment_currency w
  | ownership_recheck_fails pre asset post w1 w2 :
      assets = pre ++ asset :: post ->
      process_payments assets (sum_prices assets) payment_currency caller w = Done tt w1 ->
      transfer_asset_ownership pre caller w1 = Done tt w2 ->
      read_slot (asset_ownership (storage w2)) (asset_id asset) <> seller asset ->
      step_fails caller assets payment_currency w.

End Notions.

(** *** The transfers and the event order as the specification words them

    The specification has the commission paid to the treasury and then each
    item's price paid to the owner the registry records for the item at that
    point. *)
Definition spec_transfers (currency buyer : N) (s : Storage)
    (assets : list DigitalAsset) : list Effect :=
  ECall currency buyer (owner s) (sum_prices assets * commission_rate s / 10000)
    :: map (fun asset =>
              ECall currency buyer (read_slot (asset_ownership s) (asset_id asset))
                    (price asset)) assets.

(** What the contract sends: each item's price goes to the seller the item
    declares. *)
Definition code_transfers (currency buyer : N) (s : Storage)
    (assets : list DigitalAsset) : list Effect :=
  ECall currency buyer (owner s) (sum_prices assets * commission_rate s / 10000)
    :: map (fun asset => ECall currency buyer (seller asset) (price asset)) assets.

(** "In every settlement the transfers are those of the specification." *)
Definition transfers_go_to_recorded_owner : Prop :=
  forall (L : Type) (Token : IERC20 L) caller assets payment_currency
         (w w' : World L),
    transaction (purchase_multiple_assets caller assets payment_currency) w = (inr tt, w') ->
    calls_of (trace w') =
    calls_of (trace w) ++ spec_transfers payment_currency caller (storage w) assets.

(** "Each [AssetPurchased] event is emitted after that item's ownership
    re-check and owner update": whenever the event of an item is in the
    trace of a settlement under way, the registry already records the buyer
    as the item's owner.  It is stated of the world between the payment pass
    and the reassignment pass. *)
Definition emitted_after_reassignment : Prop :=
  forall (L : Type) (Token : IERC20 L) caller assets payment_currency
         (w w1 w' : World L) emitted asset,
    purchase_multiple_assets caller assets payment_currency w = Done tt w' ->
    process_payments assets (sum_prices assets) payment_currency caller w = Done tt w1 ->
    trace w1 = trace w ++ emitted ->
    In asset assets ->
    In (EEmit (AssetPurchased (asset_id asset) caller (seller asset) (price asset)))
       emitted ->
    read_slot (asset_ownership (storage w1)) (asset_id asset) = caller.

(** *** The ledger a settlement leaves *)


Section Funds.
Context {L : Type} `{Token : IERC20 L}.




(** A value transfer of the settlement that returns [false]: the one of the
    commission, or the one to the seller of an item after the commission
    and the items before it went through. *)
Inductive transfer_refused (caller : N) (assets : list DigitalAsset)
    (payment_currency : N) (w : World L) : Prop :=
  | commission_refused l' :
      transferFrom payment_currency caller (owner (storage w))
        (sum_prices assets * commission_rate (storage w) / 10000) (ledger w)
        = Some (false, l') ->
      transfer_refused caller assets payment_currency w
  | seller_refused pre asset post ok w0 w1 l' :
      assets = pre ++ asset :: post ->
      call_transferFrom payment_currency caller (owner (storage w))
        (sum_prices assets * commission_rate (storage w) / 10000) w = Done ok w0 ->
      for_each (pay_seller payment_currency caller) pre w0 = Done tt w1 ->
      transferFrom payment_currency caller (seller asset) (price asset) (ledger w1)
        = Some (false, l') ->
      transfer_refused caller assets payment_currency w.

End Funds.




(** "If any step fails, a value transfer included, the entire settlement
    aborts and all state is as before the call", where a value transfer fails
    when it does not succeed: it reverts or it returns [false]. *)
Definition any_failed_step_aborts : Prop :=
  forall (L : Type) (Token : IERC20 L) caller assets payment_currency (w : World L),
    step_fails caller assets payment_currency w
    \/ transfer_refused caller assets payment_currency w ->
    exists e,
      transaction (purchase_multiple_assets caller assets payment_currency) w
      = (inl e, w).


(** A token that does not revert when the sender holds too little: it
    leaves the balances alone and returns [false]. *)
Definition polite_transferFrom (token sender recipient amount : N)
    (bal : gmap (N * N) N) : option (bool * gmap (N * N) N) :=
  if amount <=? balance_of bal token sender
  then simple_transferFrom token sender recipient amount bal
  else Some (false, bal).

Definition PoliteToken : IERC20 (gmap (N * N) N) :=
  {| transferFrom := polite_transferFrom |}.

(** *** Further notions used for the properties beyond the claims *)

(** The caller of an owner-only entry point. *)
Definition admin_caller (c : Call) : option N :=
  match c with
  | CallPurchase _ _ _ => None
  | CallRegister caller _ _ _ _ => Some caller
  | CallSetCommissionRate caller _ => Some caller
  | CallAddCurrency caller _ => Some caller
  | CallRemoveCurrency caller _ => Some caller
  end.

(** The storage without the currency map, without the three registry maps,
    and the policy fields alone. *)
Definition outside_currencies (s : Storage) :=
  (ownable s, pausable s, owner s, commission_rate s,
   asset_metadata s, asset_ownership s, asset_registered s).

Definition policy (s : Storage) :=
  (ownable s, pausable s, owner s, commission_rate s, supported_currencies s).

(** An identifier that was never registered has no metadata and no owner. *)
Definition registry_consistent (s : Storage) : Prop :=
  forall id, read_flag (asset_registered s) id = false ->
             read_slot (asset_metadata s) id = 0
             /\ read_slot (asset_ownership s) id = 0.

(** The events of a trace, and the amounts its token calls ask for. *)
Definition events_of (t : list Effect) : list Event :=
  flat_map (fun e => match e with ECall _ _ _ _ => [] | EEmit ev => [ev] end) t.

Definition requested (t : list Effect) : N :=
  foldr (fun e acc => match e with ECall _ _ _ amount => amount + acc | EEmit _ => acc end)
        0 t.

Definition purchased_events (buyer : N) (assets : list DigitalAsset) : list Event :=
  map (fun asset => AssetPurchased (asset_id asset) buyer (seller asset) (price asset))
      assets.

(** The commission [process_payments] requests for a total at a rate once
    its checked product has fitted the [u256] range. *)
Definition commission_of (total_price rate : N) : N := total_price * rate / 10000.

Ltac step :=
  unfold bind, read, write, emit, assert, checked, ret, panic in *; simpl in *.

Lemma world_eta {L} (w : World L) :
  Build_World (storage w) (ledger w) (trace w) = w.
Proof. by destruct w. Qed.

Lemma u256_add_inr a b v : u256_add a b = inr v -> v = a + b /\ a + b <= U256_MAX.
Proof.
  unfold u256_add. destruct (N.leb_spec (a + b) U256_MAX); [|done].
  intros [= <-]. done.
Qed.

Lemma u256_add_inl a b e : u256_add a b = inl e -> e = ArithmeticOverflow /\ U256_MAX < a + b.
Proof.
  unfold u256_add. destruct (N.leb_spec (a + b) U256_MAX); [done|].
  intros [= <-]. done.
Qed.

Lemma u256_mul_inr a b v : u256_mul a b = inr v -> v = a * b /\ a * b <= U256_MAX.
Proof.
  unfold u256_mul. destruct (N.leb_spec (a * b) U256_MAX); [|done].
  intros [= <-]. done.
Qed.

Lemma u256_mul_inl a b e : u256_mul a b = inl e -> e = ArithmeticOverflow /\ U256_MAX < a * b.
Proof.
  unfold u256_mul. destruct (N.leb_spec (a * b) U256_MAX); [done|].
  intros [= <-]. done.
Qed.

Section Properties.
Context {L : Type} `{Token : IERC20 L}.
Implicit Types (w : World L) (assets : list DigitalAsset).

(** *** The validation and pricing pass *)

Lemma calculate_total_price_from_pure assets : forall total w,
  final (calculate_total_price_from total assets w) = w.
Proof.
  induction assets as [|a rest IH]; intros total w; [done|].
  simpl. step.
  destruct (read_flag _ _); [|done].
  destruct (u256_add total (price a)); [done|]. apply IH.
Qed.

Lemma calculate_total_price_from_done assets : forall total w t w',
  calculate_total_price_from total assets w = Done t w' ->
  w' = w /\ t = total + sum_prices assets
  /\ (total <= U256_MAX -> t <= U256_MAX)
  /\ all_registered (storage w) assets = true.
Proof.
  induction assets as [|a rest IH]; intros total w t w'.
  - simpl. step. intros [= <- <-]. repeat split; [lia | done].
  - simpl. step.
    destruct (read_flag _ _) eqn:Hreg; [|done].
    destruct (u256_add total (price a)) as [e|v] eqn:Hadd; [done|].
    apply u256_add_inr in Hadd as [-> Hle].
    intros Hrun. apply IH in Hrun as (-> & -> & Hmax & Hall).
    repeat split; [lia | auto | by rewrite Hall].
Qed.

Lemma calculate_total_price_from_ok assets : forall total w,
  all_registered (storage w) assets = true ->
  total + sum_prices assets <= U256_MAX ->
  calculate_total_price_from total assets w = Done (total + sum_prices assets) w.
Proof.
  induction assets as [|a rest IH]; intros total w Hall Hsum; simpl in *.
  - step. by rewrite N.add_0_r.
  - apply andb_prop in Hall as [Hreg Hall]. step. rewrite Hreg.
    unfold u256_add. destruct (N.leb_spec (total + price a) U256_MAX); [|lia].
    rewrite IH; [|done|lia]. f_equal. lia.
Qed.

Lemma calculate_total_price_from_overflow assets : forall total w,
  all_registered (storage w) assets = true ->
  U256_MAX < total + sum_prices assets ->
  total <= U256_MAX ->
  calculate_total_price_from total assets w = Panicked ArithmeticOverflow w.
Proof.
  induction assets as [|a rest IH]; intros total w Hall Hsum Htot; simpl in *.
  - lia.
  - apply andb_prop in Hall as [Hreg Hall]. step. rewrite Hreg.
    unfold u256_add. destruct (N.leb_spec (total + price a) U256_MAX); [|done].
    apply IH; [done|lia|done].
Qed.

Lemma calculate_total_price_from_unregistered assets : forall total w,
  all_registered (storage w) assets = false ->
  total + sum_prices assets <= U256_MAX ->
  calculate_total_price_from total assets w = Panicked UnregisteredAsset w.
Proof.
  induction assets as [|a rest IH]; intros total w Hall Hsum; simpl in *.
  - done.
  - step. destruct (read_flag _ _) eqn:Hreg; [|done]. simpl in Hall.
    unfold u256_add. destruct (N.leb_spec (total + price a) U256_MAX); [|lia].
    apply IH; [done|lia].
Qed.

Lemma calculate_total_price_from_errors assets : forall total w e w',
  calculate_total_price_from total assets w = Panicked e w' ->
  w' = w /\ (e = UnregisteredAsset \/ e = ArithmeticOverflow).
Proof.
  induction assets as [|a rest IH]; intros total w e w'; simpl; step; [done|].
  destruct (read_flag _ _); [|intros [= <- <-]; auto].
  destruct (u256_add total (price a)) as [e'|v] eqn:Hadd.
  - apply u256_add_inl in Hadd as [-> _]. intros [= <- <-]; auto.
  - apply IH.
Qed.

(** *** Loops *)

Lemma for_each_app {A} (body : A -> M L unit) (xs ys : list A) w :
  for_each body (xs ++ ys) w =
  match for_each body xs w with
  | Done _ w1 => for_each body ys w1
  | Panicked e w1 => Panicked e w1
  end.
Proof.
  revert w. induction xs as [|x xs IH]; intros w; simpl; [done|].
  unfold bind. destruct (body x w); [apply IH | done].
Qed.

(** *** Calls into the token *)

Lemma call_transferFrom_done currency sender recipient amount w ok w' :
  call_transferFrom currency sender recipient amount w = Done ok w' ->
  storage w' = storage w
  /\ trace w' = trace w ++ [ECall currency sender recipient amount]
  /\ transferFrom currency sender recipient amount (ledger w) = Some (ok, ledger w').
Proof.
  unfold call_transferFrom.
  destruct (transferFrom _ _ _ _ _) as [[b l']|]; [|done].
  intros [= <- <-]. done.
Qed.

Lemma call_transferFrom_panicked currency sender recipient amount w e w' :
  call_transferFrom currency sender recipient amount w = Panicked e w' ->
  e = TransferFailed
  /\ storage w' = storage w /\ ledger w' = ledger w
  /\ trace w' = trace w ++ [ECall currency sender recipient amount]
  /\ transferFrom currency sender recipient amount (ledger w) = None.
Proof.
  unfold call_transferFrom.
  destruct (transferFrom _ _ _ _ _) as [[b l']|]; [done|].
  intros [= <- <-]. done.
Qed.

(** *** The payment pass *)

Lemma pay_sellers_done currency buyer assets : forall w w',
  for_each (pay_seller currency buyer) assets w = Done tt w' ->
  storage w' = storage w
  /\ trace w' = trace w ++ flat_map (seller_effects currency buyer) assets.
Proof.
  induction assets as [|a rest IH]; intros w w'; simpl.
  - step. intros [= <-]. by rewrite app_nil_r.
  - unfold bind at 1. unfold pay_seller at 1. unfold bind at 1.
    destruct (call_transferFrom _ _ _ _ w) as [ok w1|e w1] eqn:Hcall; [|done].
    apply call_transferFrom_done in Hcall as (Hs & Ht & _).
    unfold emit. intros Hrest. apply IH in Hrest as [Hs' Ht']. simpl in *.
    split; [congruence|]. rewrite Ht', Ht, <- !app_assoc. done.
Qed.

Lemma pay_sellers_panicked currency buyer assets : forall w e w',
  for_each (pay_seller currency buyer) assets w = Panicked e w' ->
  e = TransferFailed /\ storage w' = storage w
  /\ exists l, trace w' = trace w ++ l.
Proof.
  induction assets as [|a rest IH]; intros w e w'; simpl.
  - by step.
  - unfold bind at 1. unfold pay_seller at 1. unfold bind at 1.
    destruct (call_transferFrom _ _ _ _ w) as [ok w1|e1 w1] eqn:Hcall.
    + apply call_transferFrom_done in Hcall as (Hs & Ht & _).
      unfold emit. intros Hrest. apply IH in Hrest as (-> & Hs' & l & Ht').
      simpl in *. split; [done|]. split; [congruence|].
      eexists. rewrite Ht', Ht, <- !app_assoc. done.
    + apply call_transferFrom_panicked in Hcall as (-> & Hs & _ & Ht & _).
      intros [= <- <-]. eauto.
Qed.

Lemma process_payments_done assets total_price currency buyer w w' :
  process_payments assets total_price currency buyer w = Done tt w' ->
  storage w' = storage w
  /\ total_price * commission_rate (storage w) <= U256_MAX
  /\ trace w' = trace w ++
       payment_effects currency buyer (owner (storage w))
         (total_price * commission_rate (storage w) / 10000) assets.
Proof.
  unfold process_payments. step.
  destruct (u256_mul _ _) as [e|v] eqn:Hmul; [done|].
  apply u256_mul_inr in Hmul as [-> Hle].
  destruct (call_transferFrom _ _ _ _ w) as [ok w1|e w1] eqn:Hcall; [|done].
  apply call_transferFrom_done in Hcall as (Hs & Ht & _).
  intros Hrest. apply pay_sellers_done in Hrest as [Hs' Ht'].
  split; [congruence|]. split; [done|].
  unfold payment_effects. rewrite Ht', Ht, <- app_assoc. done.
Qed.

Lemma process_payments_panicked assets total_price currency buyer w e w' :
  process_payments assets total_price currency buyer w = Panicked e w' ->
  storage w' = storage w
  /\ ((e = ArithmeticOverflow /\ w' = w)
      \/ (e = TransferFailed /\ exists l, trace w' = trace w ++
            ECall currency buyer (owner (storage w))
              (total_price * commission_rate (storage w) / 10000) :: l)).
Proof.
  unfold process_payments. step.
  destruct (u256_mul _ _) as [e1|v] eqn:Hmul.
  - apply u256_mul_inl in Hmul as [-> _]. intros [= <- <-]. auto.
  - apply u256_mul_inr in Hmul as [-> Hle].
    destruct (call_transferFrom _ _ _ _ w) as [ok w1|e1 w1] eqn:Hcall.
    + apply call_transferFrom_done in Hcall as (Hs & Ht & _).
      intros Hrest. apply pay_sellers_panicked in Hrest as (-> & Hs' & l & Ht').
      split; [congruence|]. right. split; [done|]. exists l.
      rewrite Ht', Ht, <- app_assoc. done.
    + apply call_transferFrom_panicked in Hcall as (-> & Hs & _ & Ht & _).
      intros [= <- <-]. split; [done|]. right. split; [done|]. exists [].
      done.
Qed.

(** *** The ownership reassignment pass *)

Lemma reassign_run buyer asset w :
  reassign buyer asset w =
  if read_slot (asset_ownership (storage w)) (asset_id asset) =? seller asset
  then Done tt (Build_World (write_asset_ownership (asset_id asset) buyer (storage w))
                            (ledger w) (trace w))
  else Panicked InvalidAssetOwnership w.
Proof. unfold reassign. step. by destruct (_ =? _). Qed.

Lemma transfer_asset_ownership_frame assets buyer : forall w,
  let w' := final (transfer_asset_ownership assets buyer w) in
  ledger w' = ledger w /\ trace w' = trace w
  /\ frame (storage w') = frame (storage w).
Proof.
  unfold transfer_asset_ownership.
  induction assets as [|a rest IH]; intros w; simpl; [done|].
  unfold bind. rewrite reassign_run. destruct (_ =? _); [|done].
  destruct (IH (Build_World (write_asset_ownership (asset_id a) buyer (storage w))
                            (ledger w) (trace w))) as (Hl & Ht & Hf).
  simpl in *. done.
Qed.

Lemma transfer_asset_ownership_done assets buyer : forall w w',
  transfer_asset_ownership assets buyer w = Done tt w' ->
  w' = Build_World (reassigned buyer assets (storage w)) (ledger w) (trace w).
Proof.
  unfold transfer_asset_ownership.
  induction assets as [|a rest IH]; intros w w'; simpl.
  - step. intros [= <-]. by rewrite world_eta.
  - unfold bind. rewrite reassign_run. destruct (_ =? _); [|done].
    intros Hrest. by apply IH in Hrest.
Qed.

Lemma transfer_asset_ownership_panicked assets buyer : forall w e w',
  transfer_asset_ownership assets buyer w = Panicked e w' ->
  e = InvalidAssetOwnership.
Proof.
  unfold transfer_asset_ownership.
  induction assets as [|a rest IH]; intros w e w'; simpl; [by step|].
  unfold bind. rewrite reassign_run. destruct (_ =? _).
  - apply IH.
  - by intros [= <- _].
Qed.

(** The run reaches [asset] in the world [w1] left by the items before
    it; what happens there decides the pass. *)
Lemma transfer_asset_ownership_at pre asset post buyer w w1 :
  transfer_asset_ownership pre buyer w = Done tt w1 ->
  transfer_asset_ownership (pre ++ asset :: post) buyer w =
  if read_slot (asset_ownership (storage w1)) (asset_id asset) =? seller asset
  then transfer_asset_ownership post buyer
         (Build_World (write_asset_ownership (asset_id asset) buyer (storage w1))
                      (ledger w1) (trace w1))
  else Panicked InvalidAssetOwnership w1.
Proof.
  unfold transfer_asset_ownership. intros Hpre.
  rewrite for_each_app, Hpre. simpl. unfold bind. rewrite reassign_run.
  by destruct (_ =? _).
Qed.

Lemma transfer_asset_ownership_prefix pre post buyer w w' :
  transfer_asset_ownership (pre ++ post) buyer w = Done tt w' ->
  exists w1, transfer_asset_ownership pre buyer w = Done tt w1
             /\ transfer_asset_ownership post buyer w1 = Done tt w'.
Proof.
  unfold transfer_asset_ownership. rewrite for_each_app.
  destruct (for_each _ pre w) as [[] w1|]; [eauto|done].
Qed.

(** *** The settlement as a whole *)

Lemma purchase_multiple_assets_run caller assets payment_currency w :
  purchase_multiple_assets caller assets payment_currency w =
  if Pausable_paused (pausable (storage w)) then Panicked SystemPaused w
  else if read_flag (supported_currencies (storage w)) payment_currency then
    match calculate_total_price assets w with
    | Done total_price w1 =>
        match process_payments assets total_price payment_currency caller w1 with
        | Done _ w2 => transfer_asset_ownership assets caller w2
        | Panicked e w2 => Panicked e w2
        end
    | Panicked e w1 => Panicked e w1
    end
  else Panicked UnsupportedCurrency w.
Proof.
  unfold purchase_multiple_assets, assert_not_paused. step.
  destruct (Pausable_paused _); [done|]. simpl.
  destruct (read_flag _ _); [|done]. simpl.
  destruct (calculate_total_price assets w); [|done].
  by destruct (process_payments _ _ _ _ _).
Qed.

Lemma purchase_multiple_assets_done caller assets payment_currency w w' :
  purchase_multiple_assets caller assets payment_currency w = Done tt w' ->
  Pausable_paused (pausable (storage w)) = false
  /\ read_flag (supported_currencies (storage w)) payment_currency = true
  /\ all_registered (storage w) assets = true
  /\ sum_prices assets <= U256_MAX
  /\ exists w1,
       process_payments assets (sum_prices assets) payment_currency caller w = Done tt w1
       /\ transfer_asset_ownership assets caller w1 = Done tt w'.
Proof.
  rewrite purchase_multiple_assets_run.
  destruct (Pausable_paused _); [done|].
  destruct (read_flag _ _); [|done].
  destruct (calculate_total_price assets w) as [t w0|] eqn:Hprice; [|done].
  apply calculate_total_price_from_done in Hprice as (-> & -> & Hmax & Hall).
  destruct (process_payments _ _ _ _ _) as [[] w1|] eqn:Hpay; [|done].
  intros Hown. rewrite N.add_0_l in *.
  repeat split; [done | apply Hmax; lia | eauto].
Qed.

Lemma purchase_multiple_assets_panicked caller assets payment_currency w e w' :
  purchase_multiple_assets caller assets payment_currency w = Panicked e w' ->
  purchase_failure e.
Proof.
  rewrite purchase_multiple_assets_run.
  destruct (Pausable_paused _); [by intros [= <- _]|].
  destruct (read_flag _ _); [|by intros [= <- _]].
  destruct (calculate_total_price assets w) as [t w0|e0 w0] eqn:Hprice.
  - destruct (process_payments _ _ _ _ _) as [[] w1|e1 w1] eqn:Hpay.
    + intros Hown. apply transfer_asset_ownership_panicked in Hown as ->. done.
    + intros [= <- _].
      apply process_payments_panicked in Hpay as (_ & [[-> _]|[-> _]]); done.
  - intros [= <- _].
    apply calculate_total_price_from_errors in Hprice as (_ & [->| ->]); done.
Qed.

Lemma process_payments_run assets total_price currency buyer w :
  process_payments assets total_price currency buyer w =
  if total_price * commission_rate (storage w) <=? U256_MAX then
    match call_transferFrom currency buyer (owner (storage w))
            (total_price * commission_rate (storage w) / 10000) w with
    | Done _ w0 => for_each (pay_seller currency buyer) assets w0
    | Panicked e w0 => Panicked e w0
    end
  else Panicked ArithmeticOverflow w.
Proof.
  unfold process_payments, u256_mul. step.
  destruct (_ <=? _); [|done].
  by destruct (call_transferFrom _ _ _ _ w).
Qed.

Lemma pay_seller_reverts currency buyer asset w :
  transferFrom currency buyer (seller asset) (price asset) (ledger w) = None ->
  exists w', pay_seller currency buyer asset w = Panicked TransferFailed w'.
Proof.
  intros Hnone. unfold pay_seller, bind, call_transferFrom. rewrite Hnone. eauto.
Qed.

Lemma step_fails_not_done caller assets payment_currency w w' :
  step_fails caller assets payment_currency w ->
  purchase_multiple_assets caller assets payment_currency w <> Done tt w'.
Proof.
  intros Hfail Hdone.
  apply purchase_multiple_assets_done in Hdone
    as (Hpause & Hcur & Hreg & Hsum & w1 & Hpay & Hown).
  destruct Hfail as [H|H|H|H|H|H|pre a post ok w0 w2 -> Hcall Hpre Hnone
                     |pre a post w2 w3 -> Hpay' Hpre Hne]; try congruence.
  - lia.
  - apply process_payments_done in Hpay as (_ & Hle & _). lia.
  - rewrite process_payments_run in Hpay.
    destruct (_ <=? _); [|done]. unfold call_transferFrom in Hpay.
    by rewrite H in Hpay.
  - rewrite process_payments_run in Hpay.
    destruct (_ <=? _); [|done]. rewrite Hcall, for_each_app, Hpre in Hpay.
    simpl in Hpay. unfold bind at 1 in Hpay.
    destruct (pay_seller_reverts payment_currency caller a w2 Hnone) as [wp Hp].
    by rewrite Hp in Hpay.
  - rewrite Hpay in Hpay'. injection Hpay' as <-.
    rewrite (transfer_asset_ownership_at _ _ _ _ _ _ Hpre) in Hown.
    apply N.eqb_neq in Hne. by rewrite Hne in Hown.
Qed.

Lemma pay_sellers_panicked_at currency buyer assets : forall w e w',
  for_each (pay_seller currency buyer) assets w = Panicked e w' ->
  exists pre asset post w1,
    assets = pre ++ asset :: post
    /\ for_each (pay_seller currency buyer) pre w = Done tt w1
    /\ transferFrom currency buyer (seller asset) (price asset) (ledger w1) = None.
Proof.
  induction assets as [|a rest IH]; intros w e w'; simpl; [by step|].
  unfold bind at 1.
  destruct (pay_seller currency buyer a w) as [[] w1|e1 w1] eqn:Hpay.
  - intros Hrest. apply IH in Hrest as (pre & b & post & w2 & -> & Hpre & Hnone).
    exists (a :: pre), b, post, w2. split; [done|]. split; [|done].
    simpl. unfold bind. by rewrite Hpay.
  - intros _. exists [], a, rest, w. split; [done|]. split; [done|].
    unfold pay_seller, bind, call_transferFrom in Hpay.
    by destruct (transferFrom _ _ _ _ _) as [[]|].
Qed.

Lemma transfer_asset_ownership_panicked_at assets buyer : forall w e w',
  transfer_asset_ownership assets buyer w = Panicked e w' ->
  exists pre asset post w1,
    assets = pre ++ asset :: post
    /\ transfer_asset_ownership pre buyer w = Done tt w1
    /\ read_slot (asset_ownership (storage w1)) (asset_id asset) <> seller asset.
Proof.
  unfold transfer_asset_ownership.
  induction assets as [|a rest IH]; intros w e w'; simpl; [by step|].
  unfold bind at 1. rewrite reassign_run.
  destruct (N.eqb_spec (read_slot (asset_ownership (storage w)) (asset_id a))
                       (seller a)) as [Heq|Hne].
  - intros Hrest. apply IH in Hrest as (pre & b & post & w2 & -> & Hpre & Hstale).
    exists (a :: pre), b, post, w2. split; [done|]. split; [|done].
    simpl. unfold bind. rewrite reassign_run.
    apply N.eqb_eq in Heq. by rewrite Heq.
  - intros _. by exists [], a, rest, w.
Qed.

(** Every panic of the settlement is the failure of one of its steps. *)
Lemma purchase_multiple_assets_panicked_step caller assets payment_currency w e w' :
  purchase_multiple_assets caller assets payment_currency w = Panicked e w' ->
  step_fails caller assets payment_currency w.
Proof.
  rewrite purchase_multiple_assets_run.
  destruct (Pausable_paused _) eqn:Hpause; [intros _; by apply pause_gate_fails|].
  destruct (read_flag _ _) eqn:Hcur; [|intros _; by apply currency_gate_fails].
  destruct (all_registered (storage w) assets) eqn:Hreg;
    [|intros _; by apply registration_check_fails].
  destruct (N.le_gt_cases (sum_prices assets) U256_MAX) as [Hsum|Hsum];
    [|intros _; by apply price_sum_overflows].
  unfold calculate_total_price.
  rewrite calculate_total_price_from_ok by (rewrite ?N.add_0_l; done).
  rewrite N.add_0_l.
  destruct (process_payments _ _ _ _ _) as [[] w1|e1 w1] eqn:Hpay.
  - intros Hown.
    apply transfer_asset_ownership_panicked_at in Hown
      as (pre & a & post & w2 & -> & Hpre & Hstale).
    by eapply ownership_recheck_fails.
  - intros _. rewrite process_payments_run in Hpay.
    destruct (N.leb_spec (sum_prices assets * commission_rate (storage w)) U256_MAX);
      [|by apply commission_overflows].
    destruct (call_transferFrom _ _ _ _ w) as [ok w0|e0 w0] eqn:Hcall.
    + apply pay_sellers_panicked_at in Hpay as (pre & a & post & w2 & -> & Hpre & Hnone).
      by eapply seller_transfer_fails.
    + apply call_transferFrom_panicked in Hcall as (_ & _ & _ & _ & Hnone).
      by apply commission_transfer_fails.
Qed.

(** *** What the entry points leave alone *)

Lemma transaction_world {A} (m : M L A) w :
  snd (transaction m w) = w \/ snd (transaction m w) = final (m w).
Proof. unfold transaction. destruct (m w); simpl; auto. Qed.

Lemma purchase_multiple_assets_frame caller assets payment_currency w :
  frame (storage (final (purchase_multiple_assets caller assets payment_currency w)))
  = frame (storage w).
Proof.
  rewrite purchase_multiple_assets_run.
  destruct (Pausable_paused _); [done|].
  destruct (read_flag _ _); [|done].
  pose proof (calculate_total_price_from_pure assets 0 w) as Hpure.
  unfold calculate_total_price.
  destruct (calculate_total_price_from 0 assets w) as [t w0|e0 w0];
    simpl in Hpure; subst w0; [|done].
  destruct (process_payments _ _ _ _ _) as [[] w1|e1 w1] eqn:Hpay.
  - apply process_payments_done in Hpay as (Hs & _).
    destruct (transfer_asset_ownership_frame assets caller w1) as (_ & _ & Hf).
    simpl in Hf. by rewrite Hf, Hs.
  - apply process_payments_panicked in Hpay as (Hs & _). simpl. by rewrite Hs.
Qed.

Lemma read_flag_insert (m : gmap N bool) k v j :
  read_flag (<[k := v]> m) j = if decide (k = j) then v else read_flag m j.
Proof. unfold read_flag. rewrite lookup_insert. by case_decide. Qed.

Lemma read_slot_insert (m : gmap N N) k v j :
  read_slot (<[k := v]> m) j = if decide (k = j) then v else read_slot m j.
Proof. unfold read_slot. rewrite lookup_insert. by case_decide. Qed.

Lemma dispatch_owner c w :
  owner (storage (final (dispatch c w))) = owner (storage w).
Proof.
  destruct c as [caller assets cur|caller id sel pr hash|caller rate
                 |caller cur|caller cur]; simpl.
  - pose proof (purchase_multiple_assets_frame caller assets cur w) as Hf.
    unfold frame in Hf. congruence.
  - unfold register_digital_asset, assert_only_owner. step.
    destruct (is_owner _ _); [|done]. simpl.
    by destruct (read_flag _ _).
  - unfold set_commission_rate, assert_only_owner. step.
    destruct (is_owner _ _); [|done]. simpl.
    by destruct (_ <? _).
  - unfold add_supported_currency, assert_only_owner. step.
    by destruct (is_owner _ _).
  - unfold remove_supported_currency, assert_only_owner. step.
    by destruct (is_owner _ _).
Qed.

(** A registered asset stays registered, with the metadata it has. *)
Lemma dispatch_keeps_registration c w id :
  read_flag (asset_registered (storage w)) id = true ->
  read_flag (asset_registered (storage (final (dispatch c w)))) id = true
  /\ read_slot (asset_metadata (storage (final (dispatch c w)))) id
     = read_slot (asset_metadata (storage w)) id.
Proof.
  intros Hreg.
  destruct c as [caller assets cur|caller id' sel pr hash|caller rate
                 |caller cur|caller cur]; simpl.
  - pose proof (purchase_multiple_assets_frame caller assets cur w) as Hf.
    unfold frame in Hf. injection Hf as _ _ _ _ _ Hm Hr. by rewrite Hm, Hr.
  - unfold register_digital_asset, assert_only_owner. step.
    destruct (is_owner _ _); [|done]. simpl.
    destruct (read_flag _ id') eqn:Hreg'; [done|]. simpl.
    rewrite read_flag_insert, read_slot_insert.
    case_decide; [congruence|done].
  - unfold set_commission_rate, assert_only_owner. step.
    destruct (is_owner _ _); [|done]. simpl.
    by destruct (_ <? _).
  - unfold add_supported_currency, assert_only_owner. step.
    by destruct (is_owner _ _).
  - unfold remove_supported_currency, assert_only_owner. step.
    by destruct (is_owner _ _).
Qed.

Lemma evolves_owner w0 w : evolves w0 w -> owner (storage w) = owner (storage w0).
Proof.
  induction 1 as [|c w1 _ IH|l w1 _ IH]; [done| |done].
  destruct (transaction_world (dispatch c) w1) as [-> | ->]; [done|].
  by rewrite dispatch_owner.
Qed.

Lemma evolves_keeps_registration w0 w id :
  evolves w0 w ->
  read_flag (asset_registered (storage w0)) id = true ->
  read_flag (asset_registered (storage w)) id = true
  /\ read_slot (asset_metadata (storage w)) id
     = read_slot (asset_metadata (storage w0)) id.
Proof.
  induction 1 as [|c w1 _ IH|l w1 _ IH]; intros Hreg; [done| |by apply IH].
  destruct (IH Hreg) as [Hr Hm].
  destruct (transaction_world (dispatch c) w1) as [-> | ->]; [done|].
  destruct (dispatch_keeps_registration c w1 id Hr) as [Hr' Hm'].
  split; [done|congruence].
Qed.

Lemma register_digital_asset_run caller asset_id seller price metadata_hash w :
  register_digital_asset caller asset_id seller price metadata_hash w =
  if is_owner (storage w) caller then
    if read_flag (asset_registered (storage w)) asset_id
    then Panicked AssetAlreadyRegistered w
    else Done tt
           (Build_World
              (write_asset_registered asset_id true
                 (write_asset_ownership asset_id seller
                    (write_asset_metadata asset_id metadata_hash (storage w))))
              (ledger w)
              (trace w ++ [EEmit (AssetRegistered asset_id seller price)]))
  else Panicked Unauthorized w.
Proof.
  unfold register_digital_asset, assert_only_owner. step.
  destruct (is_owner _ _); [|done]. simpl.
  by destruct (read_flag _ _).
Qed.

(** *** Traces and owners of a settlement that returns *)

Lemma calls_of_app t1 t2 : calls_of (t1 ++ t2) = calls_of t1 ++ calls_of t2.
Proof. apply List.filter_app. Qed.

Lemma calls_of_payment_effects currency buyer treasury commission assets :
  calls_of (payment_effects currency buyer treasury commission assets)
  = ECall currency buyer treasury commission
      :: map (fun asset => ECall currency buyer (seller asset) (price asset)) assets.
Proof.
  unfold payment_effects. simpl. f_equal.
  induction assets as [|a rest IH]; simpl; [done|]. by rewrite IH.
Qed.

Lemma reassigned_keeps_buyer buyer assets : forall s id,
  read_slot (asset_ownership s) id = buyer ->
  read_slot (asset_ownership (reassigned buyer assets s)) id = buyer.
Proof.
  unfold reassigned.
  induction assets as [|a rest IH]; intros s id Hid; simpl; [done|].
  apply IH. simpl. rewrite read_slot_insert. by case_decide.
Qed.

Lemma reassigned_owner buyer assets : forall s asset,
  In asset assets ->
  read_slot (asset_ownership (reassigned buyer assets s)) (asset_id asset) = buyer.
Proof.
  induction assets as [|a rest IH]; intros s asset Hin; [done|].
  destruct Hin as [<- | Hin].
  - apply (reassigned_keeps_buyer buyer rest). simpl.
    rewrite read_slot_insert. by case_decide.
  - by apply (IH (write_asset_ownership (asset_id a) buyer s)).
Qed.

(** With no identifier repeated, every item is re-checked against the
    owner recorded before the pass. *)
Lemma transfer_asset_ownership_sellers assets buyer : forall w w',
  NoDup (map asset_id assets) ->
  transfer_asset_ownership assets buyer w = Done tt w' ->
  Forall (fun asset =>
            read_slot (asset_ownership (storage w)) (asset_id asset) = seller asset)
         assets.
Proof.
  unfold transfer_asset_ownership.
  induction assets as [|a rest IH]; intros w w' Hnd; simpl; [done|].
  apply NoDup_cons in Hnd as [Hfresh Hnd].
  unfold bind. rewrite reassign_run.
  destruct (N.eqb_spec (read_slot (asset_ownership (storage w)) (asset_id a))
                       (seller a)) as [Hown|]; [|done].
  intros Hrest. apply IH in Hrest; [|done]. constructor; [done|].
  apply Forall_forall. intros b Hb.
  rewrite Forall_forall in Hrest. specialize (Hrest b Hb). simpl in Hrest.
  rewrite read_slot_insert in Hrest. case_decide as Heq; [|done].
  exfalso. apply Hfresh. rewrite Heq. by apply list_elem_of_fmap_2.
Qed.

Lemma purchase_multiple_assets_trace caller assets payment_currency w w' :
  purchase_multiple_assets caller assets payment_currency w = Done tt w' ->
  trace w' = trace w ++
    payment_effects payment_currency caller (owner (storage w))
      (sum_prices assets * commission_rate (storage w) / 10000) assets.
Proof.
  intros Hdone.
  apply purchase_multiple_assets_done in Hdone as (_ & _ & _ & _ & w1 & Hpay & Hown).
  apply process_payments_done in Hpay as (_ & _ & Ht).
  apply transfer_asset_ownership_done in Hown as ->. done.
Qed.

End Properties.

(** ** The ledger through a settlement *)




Section LedgerProperties.
Context {L : Type} `{Token : IERC20 L}.
Implicit Types (w : World L) (assets : list DigitalAsset).







End LedgerProperties.

(** * The claims *)

Section Claims.
Context {L : Type} `{Token : IERC20 L}.
Implicit Types (w : World L) (assets : list DigitalAsset).

(** C1, as amended.  Atomicity of [purchase_multiple_assets].  For every
    batch, when a step of the settlement panics (the pause gate, the
    currency gate, the registration check, an overflowing sum or commission
    product, a value transfer for the commission or for any seller that
    reverts, or the ownership re-check of any item), the call fails with one
    of the settlement's errors and the world after the transaction is the
    world before it: storage (every recorded owner, the registry, the
    policy), token ledger (all balances) and emitted events.  These are the
    only ways the call fails.  The contract stages nothing itself: the
    rollback is the revert of the transaction. *)
Theorem purchase_multiple_assets_atomic caller assets payment_currency w :
  (step_fails caller assets payment_currency w ->
   exists e,
     purchase_failure e
     /\ transaction (purchase_multiple_assets caller assets payment_currency) w
        = (inl e, w))
  /\ (forall e w',
        transaction (purchase_multiple_assets caller assets payment_currency) w
          = (inl e, w') ->
        w' = w /\ purchase_failure e /\ step_fails caller assets payment_currency w).
Proof.
  unfold transaction.
  destruct (purchase_multiple_assets caller assets payment_currency w)
    as [[] w1|e1 w1] eqn:Hrun.
  - split; [|done]. intros Hfail.
    by apply step_fails_not_done with (w' := w1) in Hfail.
  - split.
    + intros _. exists e1. split; [|done]. by eapply purchase_multiple_assets_panicked.
    + intros e w' [= <- <-]. split; [done|].
      split; [by eapply purchase_multiple_assets_panicked|].
      by eapply purchase_multiple_assets_panicked_step.
Qed.

(** C2, as amended.  In every settlement that goes through, the calls
    into the token are exactly these, in this order: one [transferFrom]
    moving the commission from the buyer to the address in the [owner]
    storage field, then one [transferFrom] per batch item, in batch order,
    moving the item's declared price from the buyer to the seller the item
    declares.  When no asset identifier occurs twice in the batch, that
    seller is the owner the registry records for the item at that point. *)
Theorem settlement_transfers caller assets payment_currency w w' :
  transaction (purchase_multiple_assets caller assets payment_currency) w
    = (inr tt, w') ->
  calls_of (trace w') =
    calls_of (trace w) ++ code_transfers payment_currency caller (storage w) assets
  /\ (NoDup (map asset_id assets) ->
      code_transfers payment_currency caller (storage w) assets
      = spec_transfers payment_currency caller (storage w) assets).
Proof.
  unfold transaction.
  destruct (purchase_multiple_assets _ _ _ w) as [[] w2|] eqn:Hrun; [|done].
  intros [= <-]. split.
  - apply purchase_multiple_assets_trace in Hrun.
    by rewrite Hrun, calls_of_app, calls_of_payment_effects.
  - intros Hnd.
    apply purchase_multiple_assets_done in Hrun
      as (_ & _ & _ & _ & w1 & Hpay & Hown).
    apply process_payments_done in Hpay as (Hs & _).
    apply transfer_asset_ownership_sellers in Hown; [|done].
    rewrite Hs in Hown. unfold code_transfers, spec_transfers. f_equal.
    clear Hnd. induction Hown as [|a rest Ha _ IH]; simpl; [done|].
    rewrite Ha. f_equal. exact IH.
Qed.

(** C3, as amended.  In a settlement that goes through, the
    [AssetPurchased {asset_id, buyer, seller, price}] event of every item
    is emitted in the payment pass, right after the item's transfer, while
    the registry is still as it was before the call.  The reassignment
    pass comes after all of them and emits nothing: for each item in
    batch order it finds the recorded owner equal to the declared seller
    and then records the buyer as owner, and at the end the buyer owns
    every asset of the batch. *)
Theorem events_precede_reassignment caller assets payment_currency w w' :
  purchase_multiple_assets caller assets payment_currency w = Done tt w' ->
  exists w1,
    process_payments assets (sum_prices assets) payment_currency caller w = Done tt w1
    /\ storage w1 = storage w
    /\ trace w1 = trace w ++
         payment_effects payment_currency caller (owner (storage w))
           (sum_prices assets * commission_rate (storage w) / 10000) assets
    /\ transfer_asset_ownership assets caller w1 = Done tt w'
    /\ trace w' = trace w1
    /\ (forall pre asset post, assets = pre ++ asset :: post ->
          exists w2,
            transfer_asset_ownership pre caller w1 = Done tt w2
            /\ read_slot (asset_ownership (storage w2)) (asset_id asset)
               = seller asset)
    /\ (forall asset, In asset assets ->
          read_slot (asset_ownership (storage w')) (asset_id asset) = caller).
Proof.
  intros Hdone.
  apply purchase_multiple_assets_done in Hdone as (_ & _ & _ & _ & w1 & Hpay & Hown).
  exists w1. split; [done|].
  destruct (process_payments_done _ _ _ _ _ _ Hpay) as (Hs & _ & Ht).
  split; [done|]. split; [done|]. split; [done|].
  pose proof (transfer_asset_ownership_done _ _ _ _ Hown) as Hw'.
  split; [by rewrite Hw'|]. split.
  - intros pre asset post ->.
    destruct (transfer_asset_ownership_prefix _ _ _ _ _ Hown) as (w2 & Hpre & _).
    exists w2. split; [done|].
    rewrite (transfer_asset_ownership_at _ _ _ _ _ _ Hpre) in Hown.
    by destruct (N.eqb_spec (read_slot (asset_ownership (storage w2)) (asset_id asset))
                            (seller asset)).
  - intros asset Hin. rewrite Hw'. simpl. by apply reassigned_owner.
Qed.

(** C4.  The stale-ownership guard.  For every item of a batch: when the
    settlement has passed the gates, the pricing pass and the payment
    pass, and the reassignment pass reaches the item in a world whose
    registry records an owner other than the seller the item declares,
    the call panics there with InvalidAssetOwnership.  The item's
    ownership entry is not written, and after the transaction the world,
    so every ownership entry, is the one from before the call. *)
Theorem stale_owner_rejected caller pre asset post payment_currency w w1 w2 :
  Pausable_paused (pausable (storage w)) = false ->
  read_flag (supported_currencies (storage w)) payment_currency = true ->
  all_registered (storage w) (pre ++ asset :: post) = true ->
  sum_prices (pre ++ asset :: post) <= U256_MAX ->
  process_payments (pre ++ asset :: post) (sum_prices (pre ++ asset :: post))
    payment_currency caller w = Done tt w1 ->
  transfer_asset_ownership pre caller w1 = Done tt w2 ->
  read_slot (asset_ownership (storage w2)) (asset_id asset) <> seller asset ->
  purchase_multiple_assets caller (pre ++ asset :: post) payment_currency w
    = Panicked InvalidAssetOwnership w2
  /\ transaction
       (purchase_multiple_assets caller (pre ++ asset :: post) payment_currency) w
     = (inl InvalidAssetOwnership, w).
Proof.
  intros Hpause Hcur Hreg Hsum Hpay Hpre Hne.
  assert (purchase_multiple_assets caller (pre ++ asset :: post) payment_currency w
          = Panicked InvalidAssetOwnership w2) as Hrun.
  { rewrite purchase_multiple_assets_run, Hpause, Hcur.
    unfold calculate_total_price.
    rewrite calculate_total_price_from_ok by (rewrite ?N.add_0_l; done).
    rewrite N.add_0_l, Hpay, (transfer_asset_ownership_at _ _ _ _ _ _ Hpre).
    apply N.eqb_neq in Hne. by rewrite Hne. }
  split; [done|]. unfold transaction. by rewrite Hrun.
Qed.


(** C6.  The validation and pricing pass.  For every batch,
    [calculate_total_price] goes through the items in order, checking that
    the asset is registered and adding the declared price with checked
    arithmetic.  It ends in the world it started in, so it writes nothing,
    calls nothing and emits nothing.  When it returns, the total is the
    exact sum of the declared prices, within the [u256] range, and every
    asset is registered; when it fails, it is with UnregisteredAsset or
    ArithmeticOverflow.  When all assets are registered and the sum
    exceeds the range it fails with ArithmeticOverflow, and so does the
    settlement once the gates are passed; when some asset is not
    registered and the sum is in range it fails with UnregisteredAsset. *)
Theorem calculate_total_price_checked assets w :
  final (calculate_total_price assets w) = w
  /\ (forall t w', calculate_total_price assets w = Done t w' ->
        t = sum_prices assets /\ t <= U256_MAX
        /\ all_registered (storage w) assets = true)
  /\ (forall e w', calculate_total_price assets w = Panicked e w' ->
        e = UnregisteredAsset \/ e = ArithmeticOverflow)
  /\ (all_registered (storage w) assets = true ->
        sum_prices assets <= U256_MAX ->
        calculate_total_price assets w = Done (sum_prices assets) w)
  /\ (all_registered (storage w) assets = true ->
        U256_MAX < sum_prices assets ->
        calculate_total_price assets w = Panicked ArithmeticOverflow w
        /\ forall caller payment_currency,
             Pausable_paused (pausable (storage w)) = false ->
             read_flag (supported_currencies (storage w)) payment_currency = true ->
             transaction (purchase_multiple_assets caller assets payment_currency) w
             = (inl ArithmeticOverflow, w))
  /\ (all_registered (storage w) assets = false ->
        sum_prices assets <= U256_MAX ->
        calculate_total_price assets w = Panicked UnregisteredAsset w).
Proof.
  unfold calculate_total_price.
  split; [apply calculate_total_price_from_pure|].
  split.
  { intros t w' Hrun.
    apply calculate_total_price_from_done in Hrun as (_ & -> & Hmax & Hall).
    rewrite N.add_0_l in *. repeat split; [apply Hmax; lia | done]. }
  split.
  { intros e w' Hrun. by apply calculate_total_price_from_errors in Hrun as [_ ?]. }
  split.
  { intros Hall Hsum.
    by rewrite calculate_total_price_from_ok; rewrite ?N.add_0_l. }
  split.
  { intros Hall Hsum.
    assert (calculate_total_price_from 0 assets w = Panicked ArithmeticOverflow w)
      as Hrun by (apply calculate_total_price_from_overflow; [done|lia|lia]).
    split; [done|]. intros caller payment_currency Hpause Hcur.
    unfold transaction. rewrite purchase_multiple_assets_run, Hpause, Hcur.
    unfold calculate_total_price. by rewrite Hrun. }
  intros Hall Hsum. apply calculate_total_price_from_unregistered; [done|lia].
Qed.

(** C7.  [set_commission_rate] called by the owner: every rate of 10000
    or more fails with InvalidCommissionRate and leaves the world, so the
    stored rate, as it was; every rate up to 9999 succeeds, writes only
    the rate, and [get_commission_rate] then returns it. *)
Theorem set_commission_rate_bound caller rate w :
  is_owner (storage w) caller = true ->
  (10000 <= rate ->
     transaction (set_commission_rate caller rate) w = (inl InvalidCommissionRate, w))
  /\ (rate <= 9999 ->
      transaction (set_commission_rate caller rate) w
      = (inr tt, Build_World (write_commission_rate rate (storage w))
                             (ledger w) (trace w))
      /\ get_commission_rate
           (storage (snd (transaction (set_commission_rate caller rate) w))) = rate).
Proof.
  intros Hown. unfold transaction, set_commission_rate, assert_only_owner. step.
  rewrite Hown. simpl. split; intros Hrate.
  - destruct (N.ltb_spec rate 10000); [lia|done].
  - destruct (N.ltb_spec rate 10000); [done|lia].
Qed.

(** C8.  Registration is once and for all.  After a successful
    [register_digital_asset] for an identifier the record holds the given
    metadata hash and seller with the registered flag set, and whatever
    transactions follow, the flag stays set and the metadata hash stays the
    same.  Every later [register_digital_asset] for the identifier that
    passes the owner gate fails with AssetAlreadyRegistered and leaves the
    world, so the record, as it is; one that the owner gate refuses fails
    with Unauthorized and changes nothing either. *)
Theorem register_digital_asset_once caller asset_id seller price metadata_hash
    w w1 w2 :
  transaction (register_digital_asset caller asset_id seller price metadata_hash) w
    = (inr tt, w1) ->
  evolves w1 w2 ->
  (get_asset_metadata (storage w1) asset_id = metadata_hash
   /\ read_slot (asset_ownership (storage w1)) asset_id = seller
   /\ read_flag (asset_registered (storage w1)) asset_id = true)
  /\ (read_flag (asset_registered (storage w2)) asset_id = true
      /\ get_asset_metadata (storage w2) asset_id = metadata_hash)
  /\ forall caller' seller' price' metadata_hash',
       (is_owner (storage w2) caller' = true ->
          transaction
            (register_digital_asset caller' asset_id seller' price' metadata_hash') w2
          = (inl AssetAlreadyRegistered, w2))
       /\ (is_owner (storage w2) caller' = false ->
            transaction
              (register_digital_asset caller' asset_id seller' price' metadata_hash') w2
            = (inl Unauthorized, w2)).
Proof.
  unfold transaction at 1. rewrite register_digital_asset_run.
  destruct (is_owner _ _); [|done].
  destruct (read_flag _ _); [done|]. intros [= <-] Hev.
  assert (get_asset_metadata
            (write_asset_registered asset_id true
               (write_asset_ownership asset_id seller
                  (write_asset_metadata asset_id metadata_hash (storage w))))
            asset_id = metadata_hash
          /\ read_slot (asset_ownership
               (write_asset_registered asset_id true
                  (write_asset_ownership asset_id seller
                     (write_asset_metadata asset_id metadata_hash (storage w)))))
               asset_id = seller
          /\ read_flag (asset_registered
               (write_asset_registered asset_id true
                  (write_asset_ownership asset_id seller
                     (write_asset_metadata asset_id metadata_hash (storage w)))))
               asset_id = true) as (Hm & Ho & Hr).
  { unfold get_asset_metadata. simpl.
    rewrite read_flag_insert, !read_slot_insert. by case_decide. }
  split; [done|].
  apply evolves_keeps_registration with (id := asset_id) in Hev as [Hr2 Hm2];
    [|exact Hr].
  split; [split; [done | unfold get_asset_metadata in *; rewrite Hm2; exact Hm]|].
  intros caller' seller' price' metadata_hash'. unfold transaction.
  rewrite register_digital_asset_run, Hr2.
  split; by intros ->.
Qed.

(** C9.  The gates of [purchase_multiple_assets].  For every batch and
    every caller: when the pause flag is set the call panics with
    SystemPaused; when the currency is not in the supported set the call
    panics at a gate, with UnsupportedCurrency unless the pause gate, which
    comes first, has already refused it.  A call refused at a gate panics
    in the world it started in (no transfer was requested, no event
    emitted, nothing written), which is also the world after the
    transaction. *)
Theorem purchase_multiple_assets_gates caller assets payment_currency w :
  (Pausable_paused (pausable (storage w)) = true ->
     purchase_multiple_assets caller assets payment_currency w
       = Panicked SystemPaused w
     /\ transaction (purchase_multiple_assets caller assets payment_currency) w
       = (inl SystemPaused, w))
  /\ (read_flag (supported_currencies (storage w)) payment_currency = false ->
      let e := if Pausable_paused (pausable (storage w))
               then SystemPaused else UnsupportedCurrency in
      purchase_multiple_assets caller assets payment_currency w = Panicked e w
      /\ transaction (purchase_multiple_assets caller assets payment_currency) w
        = (inl e, w)).
Proof.
  unfold transaction. rewrite purchase_multiple_assets_run.
  split.
  - by intros ->.
  - intros ->. by destruct (Pausable_paused _).
Qed.

(** C10.  The [owner] storage field, which [process_payments] reads as the
    recipient of the commission, is written by no entry point: every
    public call leaves it as it was, whether the call returns or panics,
    and so does every sequence of transactions.  The contract has no
    constructor, so in every world reachable from deployment the field
    holds the zero address, and a payment pass started there requests the
    commission transfer, when it gets that far, with the zero address as
    recipient.  The owner that authorizes admin operations is the Ownable
    component's [Ownable_owner], another slot: the owner gate does not
    depend on the [owner] field. *)
Theorem commission_recipient_never_set :
  (forall c w,
     owner (storage (final (dispatch c w))) = owner (storage w)
     /\ owner (storage (snd (transaction (dispatch c) w))) = owner (storage w))
  /\ (forall w0 w, evolves w0 w -> owner (storage w) = owner (storage w0))
  /\ (forall w, reachable w ->
        owner (storage w) = ZERO_ADDRESS
        /\ forall assets total_price currency buyer,
             let commission := total_price * commission_rate (storage w) / 10000 in
             match process_payments assets total_price currency buyer w with
             | Done _ w' =>
                 trace w' = trace w ++
                   payment_effects currency buyer ZERO_ADDRESS commission assets
             | Panicked e w' =>
                 (e = ArithmeticOverflow /\ w' = w)
                 \/ (e = TransferFailed
                     /\ exists l, trace w' = trace w ++
                          ECall currency buyer ZERO_ADDRESS commission :: l)
             end)
  /\ (forall s s' caller,
        ownable s = ownable s' -> is_owner s caller = is_owner s' caller).
Proof.
  split.
  { intros c w. split; [apply dispatch_owner|].
    destruct (transaction_world (dispatch c) w) as [-> | ->];
      [done | apply dispatch_owner]. }
  split; [apply evolves_owner|].
  split; [|by intros s s' caller; unfold is_owner; intros ->].
  intros w (w0 & Hdep & Hev).
  assert (owner (storage w) = ZERO_ADDRESS) as Hzero.
  { apply evolves_owner in Hev. by rewrite Hev, Hdep. }
  split; [done|]. intros assets total_price currency buyer commission.
  destruct (process_payments _ _ _ _ _) as [[] w'|e w'] eqn:Hpay.
  - apply process_payments_done in Hpay as (_ & _ & Ht). by rewrite <- Hzero.
  - apply process_payments_panicked in Hpay as (_ & Hcases). by rewrite <- Hzero.
Qed.

End Claims.

(** * Instances of the claims on the example market *)

(** The specification's atomicity test: the buyer holds 300, enough for the
    commission and the first item; the second item's transfer reverts and
    nothing of the settlement remains. *)
Lemma purchase_multiple_assets_atomic_witness :
  exists e,
    purchase_failure e
    /\ transaction (purchase_multiple_assets Fixture.BUYER Fixture.batch Fixture.STRK)
         (Fixture.world 300)
       = (inl e, Fixture.world 300).
Proof.
  apply (proj1 (purchase_multiple_assets_atomic Fixture.BUYER Fixture.batch
                  Fixture.STRK (Fixture.world 300))).
  apply (seller_transfer_fails _ _ _ _
           [Fixture.item Fixture.ALICE 1 100] (Fixture.item Fixture.BOB 2 250)
           [Fixture.item Fixture.CAROL 3 150]
           true Fixture.after_commission Fixture.after_alice);
    vm_compute; reflexivity.
Defined.

(** C1 as stated fails with a token that reports a refused transfer by
    returning [false]: the buyer holds nothing, the commission transfer is
    refused, and the settlement goes through all the same. *)
Lemma any_failed_step_aborts_fails : ~ any_failed_step_aborts.
Proof.
  intros Hclaim.
  destruct (Hclaim _ PoliteToken Fixture.BUYER Fixture.batch Fixture.STRK
              (Fixture.world 0)) as [e Hrun].
  - right. apply (commission_refused _ _ _ _ (ledger (Fixture.world 0))).
    vm_compute. reflexivity.
  - vm_compute in Hrun. discriminate.
Qed.

(** What that settlement leaves: the buyer owns the three assets and nobody
    has been paid. *)
Example unpaid_settlement_goes_through :
  exists w',
    @purchase_multiple_assets _ PoliteToken Fixture.BUYER Fixture.batch Fixture.STRK
      (Fixture.world 0) = Done tt w'
    /\ (read_slot (asset_ownership (storage w')) 1 = Fixture.BUYER
        /\ read_slot (asset_ownership (storage w')) 2 = Fixture.BUYER
        /\ read_slot (asset_ownership (storage w')) 3 = Fixture.BUYER)
    /\ (balance_of (ledger w') Fixture.STRK Fixture.ALICE = 0
        /\ balance_of (ledger w') Fixture.STRK Fixture.BOB = 0
        /\ balance_of (ledger w') Fixture.STRK Fixture.CAROL = 0).
Proof.
  eexists. split; [vm_compute; reflexivity|]. vm_compute. repeat split.
Qed.

(** The contract itself stages nothing: when the second seller's transfer
    reverts, the commission and the first seller have been paid and the
    first event emitted in the world the panic leaves.  It is the revert of
    the transaction that restores the world. *)
Example panic_leaves_partial_payments :
  exists wp,
    purchase_multiple_assets Fixture.BUYER Fixture.batch Fixture.STRK (Fixture.world 300)
    = Panicked TransferFailed wp
    /\ balance_of (ledger wp) Fixture.STRK Fixture.ALICE = 100
    /\ balance_of (ledger wp) Fixture.STRK ZERO_ADDRESS = 25
    /\ trace wp = [ECall Fixture.STRK Fixture.BUYER ZERO_ADDRESS 25;
                   ECall Fixture.STRK Fixture.BUYER Fixture.ALICE 100;
                   EEmit (AssetPurchased 1 Fixture.BUYER Fixture.ALICE 100);
                   ECall Fixture.STRK Fixture.BUYER Fixture.BOB 250].
Proof.
  eexists. split; [vm_compute; reflexivity|]. vm_compute. repeat split.
Qed.

(** The settlement of the example batch by a buyer holding 1000. *)
Lemma settlement_transfers_witness :
  calls_of (trace (snd (transaction
     (purchase_multiple_assets Fixture.BUYER Fixture.batch Fixture.STRK)
     (Fixture.world 1000))))
  = [ECall Fixture.STRK Fixture.BUYER 0 25;
     ECall Fixture.STRK Fixture.BUYER Fixture.ALICE 100;
     ECall Fixture.STRK Fixture.BUYER Fixture.BOB 250;
     ECall Fixture.STRK Fixture.BUYER Fixture.CAROL 150].
Proof.
  refine (proj1 (settlement_transfers Fixture.BUYER Fixture.batch Fixture.STRK
                   (Fixture.world 1000) _ _)).
  vm_compute. reflexivity.
Defined.

(** C2 as stated fails on [repeated_batch]: the settlement goes through,
    the second item is paid to the buyer, whom it declares as seller, while
    the registry records Alice as the owner of asset 1 during the payment
    pass. *)
Lemma transfers_go_to_recorded_owner_fails : ~ transfers_go_to_recorded_owner.
Proof.
  intros Hclaim.
  specialize (Hclaim _ SimpleToken Fixture.BUYER Fixture.repeated_batch Fixture.STRK
                (Fixture.world 1000)
                (snd (transaction
                   (purchase_multiple_assets Fixture.BUYER Fixture.repeated_batch
                      Fixture.STRK) (Fixture.world 1000)))).
  assert (transaction
            (purchase_multiple_assets Fixture.BUYER Fixture.repeated_batch Fixture.STRK)
            (Fixture.world 1000)
          = (inr tt, snd (transaction
               (purchase_multiple_assets Fixture.BUYER Fixture.repeated_batch
                  Fixture.STRK) (Fixture.world 1000)))) as Hrun
    by (vm_compute; reflexivity).
  apply Hclaim in Hrun. vm_compute in Hrun. discriminate.
Qed.

Lemma events_precede_reassignment_witness :
  exists w1,
    process_payments Fixture.batch (sum_prices Fixture.batch) Fixture.STRK Fixture.BUYER
      (Fixture.world 1000) = Done tt w1
    /\ storage w1 = storage (Fixture.world 1000)
    /\ In (EEmit (AssetPurchased 1 Fixture.BUYER Fixture.ALICE 100)) (trace w1).
Proof.
  destruct (events_precede_reassignment Fixture.BUYER Fixture.batch Fixture.STRK
              (Fixture.world 1000)
              (final (purchase_multiple_assets Fixture.BUYER Fixture.batch Fixture.STRK
                        (Fixture.world 1000))))
    as (w1 & Hpay & Hs & Ht & _).
  - vm_compute. reflexivity.
  - exists w1. split; [exact Hpay|]. split; [exact Hs|].
    rewrite Ht. vm_compute. auto.
Defined.

(** C3 as stated fails on the example batch: when the payment pass is over
    the event of asset 1 has been emitted, and the registry still records
    Alice, not the buyer, as its owner. *)
Lemma emitted_after_reassignment_fails : ~ emitted_after_reassignment.
Proof.
  intros Hclaim.
  specialize (Hclaim _ SimpleToken Fixture.BUYER Fixture.batch Fixture.STRK
                (Fixture.world 1000)
                (final (process_payments Fixture.batch (sum_prices Fixture.batch)
                          Fixture.STRK Fixture.BUYER (Fixture.world 1000)))
                (final (purchase_multiple_assets Fixture.BUYER Fixture.batch
                          Fixture.STRK (Fixture.world 1000)))
                (payment_effects Fixture.STRK Fixture.BUYER ZERO_ADDRESS 25 Fixture.batch)
                (Fixture.item Fixture.ALICE 1 100)).
  assert (read_slot
            (asset_ownership
               (storage (final (process_payments Fixture.batch
                                  (sum_prices Fixture.batch)
                                  Fixture.STRK Fixture.BUYER (Fixture.world 1000)))))
            (asset_id (Fixture.item Fixture.ALICE 1 100)) = Fixture.BUYER) as Hown.
  { apply Hclaim.
    - vm_compute. reflexivity.
    - vm_compute. reflexivity.
    - vm_compute. reflexivity.
    - vm_compute. auto.
    - vm_compute. auto 10. }
  vm_compute in Hown. discriminate.
Qed.

(** Asset 2 belongs to Bob and the batch declares Alice: the settlement is
    refused at the second item of the reassignment pass. *)
Lemma stale_owner_rejected_witness :
  transaction
    (purchase_multiple_assets Fixture.BUYER Fixture.stale_batch Fixture.STRK)
    (Fixture.world 1000)
  = (inl InvalidAssetOwnership, Fixture.world 1000).
Proof.
  refine (proj2 (stale_owner_rejected Fixture.BUYER
                   [Fixture.item Fixture.ALICE 1 100] (Fixture.item Fixture.ALICE 2 250) []
                   Fixture.STRK (Fixture.world 1000)
                   (final (process_payments Fixture.stale_batch
                             (sum_prices Fixture.stale_batch)
                             Fixture.STRK Fixture.BUYER (Fixture.world 1000)))
                   (final (transfer_asset_ownership [Fixture.item Fixture.ALICE 1 100]
                             Fixture.BUYER
                             (final (process_payments Fixture.stale_batch
                                       (sum_prices Fixture.stale_batch)
                                       Fixture.STRK Fixture.BUYER (Fixture.world 1000)))))
                   _ _ _ _ _ _ _));
    vm_compute; (reflexivity || discriminate).
Defined.

(** A stale seller is paid, and the event of the item emitted, before the
    re-check refuses the item; the revert undoes both. *)
Example stale_seller_paid_before_recheck :
  exists wp,
    purchase_multiple_assets Fixture.BUYER Fixture.stale_batch Fixture.STRK
      (Fixture.world 1000)
    = Panicked InvalidAssetOwnership wp
    /\ In (EEmit (AssetPurchased 2 Fixture.BUYER Fixture.ALICE 250)) (trace wp)
    /\ read_slot (asset_ownership (storage wp)) 2 = Fixture.BOB.
Proof.
  eexists. split; [vm_compute; reflexivity|]. vm_compute. auto 10.
Qed.



(** With the example token every seller ends up with the declared price,
    the zero address with the commission, and the buyer with the rest. *)
Example sellers_receive_declared_price :
  let l := ledger (snd (transaction
             (purchase_multiple_assets Fixture.BUYER Fixture.batch Fixture.STRK)
             (Fixture.world 1000))) in
  balance_of l Fixture.STRK Fixture.ALICE = 100
  /\ balance_of l Fixture.STRK Fixture.BOB = 250
  /\ balance_of l Fixture.STRK Fixture.CAROL = 150
  /\ balance_of l Fixture.STRK ZERO_ADDRESS = 25
  /\ balance_of l Fixture.STRK Fixture.BUYER = 475.
Proof. vm_compute. repeat split. Qed.

Lemma calculate_total_price_checked_witness :
  transaction (purchase_multiple_assets Fixture.BUYER Fixture.huge_batch Fixture.STRK)
    (Fixture.world 1000)
  = (inl ArithmeticOverflow, Fixture.world 1000).
Proof.
  destruct (calculate_total_price_checked Fixture.huge_batch (Fixture.world 1000))
    as (_ & _ & _ & _ & Hover & _).
  apply Hover; vm_compute; reflexivity.
Defined.

Lemma set_commission_rate_bound_witness :
  transaction (set_commission_rate Fixture.ADMIN 10000) (Fixture.world 0)
  = (inl InvalidCommissionRate, Fixture.world 0)
  /\ get_commission_rate
       (storage (snd (transaction (set_commission_rate Fixture.ADMIN 9999)
                        (Fixture.world 0)))) = 9999.
Proof.
  split.
  - apply (proj1 (set_commission_rate_bound Fixture.ADMIN 10000 (Fixture.world 0)
                    eq_refl)).
    vm_compute. discriminate.
  - apply (proj2 (set_commission_rate_bound Fixture.ADMIN 9999 (Fixture.world 0)
                    eq_refl)).
    vm_compute. discriminate.
Defined.

(** Asset 4 is registered by the owner; after the settlement of another
    batch a second registration of asset 4 by the owner is refused. *)
Lemma register_digital_asset_once_witness :
  transaction (register_digital_asset Fixture.ADMIN 4 Fixture.BOB 80 204)
    (snd (transaction
            (dispatch (CallPurchase Fixture.BUYER Fixture.batch Fixture.STRK))
            Fixture.with_asset_4))
  = (inl AssetAlreadyRegistered,
     snd (transaction
            (dispatch (CallPurchase Fixture.BUYER Fixture.batch Fixture.STRK))
            Fixture.with_asset_4)).
Proof.
  refine (proj1 (proj2 (proj2
    (register_digital_asset_once Fixture.ADMIN 4 Fixture.ALICE 70 104
       (Fixture.world 1000) Fixture.with_asset_4 _ _ _))
    Fixture.ADMIN Fixture.BOB 80 204) _).
  - vm_compute. reflexivity.
  - apply evolves_call, evolves_refl.
  - vm_compute. reflexivity.
Defined.

Lemma purchase_multiple_assets_gates_witness :
  transaction (purchase_multiple_assets Fixture.BUYER Fixture.batch Fixture.STRK)
    Fixture.paused_world
  = (inl SystemPaused, Fixture.paused_world)
  /\ transaction (purchase_multiple_assets Fixture.BUYER Fixture.batch Fixture.DOGE)
      (Fixture.world 1000)
    = (inl UnsupportedCurrency, Fixture.world 1000).
Proof.
  split.
  - apply (proj1 (purchase_multiple_assets_gates
                    Fixture.BUYER Fixture.batch Fixture.STRK Fixture.paused_world)).
    reflexivity.
  - apply (proj2 (purchase_multiple_assets_gates
                    Fixture.BUYER Fixture.batch Fixture.DOGE (Fixture.world 1000))).
    reflexivity.
Defined.

(** After deployment and a first transaction the field is still zero. *)
Lemma commission_recipient_never_set_witness :
  owner (storage (snd (transaction (dispatch (CallAddCurrency Fixture.ADMIN Fixture.STRK))
                         Fixture.fresh_world)))
  = ZERO_ADDRESS.
Proof.
  refine (proj1 (proj1 (proj2 (proj2 commission_recipient_never_set)) _ _)).
  exists Fixture.fresh_world. split; [reflexivity|].
  apply evolves_call, evolves_refl.
Defined.

(** * Further properties of the contract *)

Section Coverage.
Context {L : Type} `{Token : IERC20 L}.
Implicit Types (w : World L) (assets : list DigitalAsset).

Lemma transaction_done {A} (m : M L A) w a w' :
  m w = Done a w' -> transaction m w = (inr a, w').
Proof. unfold transaction. by intros ->. Qed.

Lemma transaction_panicked {A} (m : M L A) w e w' :
  m w = Panicked e w' -> transaction m w = (inl e, w).
Proof. unfold transaction. by intros ->. Qed.

(** X1.  Every owner-only entry point ([register_digital_asset],
    [set_commission_rate], [add_supported_currency],
    [remove_supported_currency]) called by anyone who does not pass the
    owner gate panics with Unauthorized before it reads or writes anything
    else: the panic happens in the world the call started in, whatever the
    arguments. *)
Theorem admin_calls_need_owner c caller w :
  admin_caller c = Some caller ->
  is_owner (storage w) caller = false ->
  dispatch c w = Panicked Unauthorized w
  /\ transaction (dispatch c) w = (inl Unauthorized, w).
Proof.
  intros Hc Hown.
  assert (dispatch c w = Panicked Unauthorized w) as Hrun.
  { destruct c; simpl in *; try done; injection Hc as ->.
    - by rewrite register_digital_asset_run, Hown.
    - unfold set_commission_rate, assert_only_owner. step. by rewrite Hown.
    - unfold add_supported_currency, assert_only_owner. step. by rewrite Hown.
    - unfold remove_supported_currency, assert_only_owner. step. by rewrite Hown. }
  split; [done|]. by apply transaction_panicked in Hrun.
Qed.

Lemma set_commission_rate_run caller rate w :
  set_commission_rate caller rate w =
  if is_owner (storage w) caller then
    if rate <? 10000
    then Done tt (Build_World (write_commission_rate rate (storage w))
                              (ledger w) (trace w))
    else Panicked InvalidCommissionRate w
  else Panicked Unauthorized w.
Proof.
  unfold set_commission_rate, assert_only_owner. step.
  destruct (is_owner _ _); [|done]. simpl. by destruct (_ <? _).
Qed.

Lemma add_supported_currency_run caller currency w :
  add_supported_currency caller currency w =
  if is_owner (storage w) caller then
    Done tt (Build_World (write_supported_currencies currency true (storage w))
                         (ledger w) (trace w))
  else Panicked Unauthorized w.
Proof.
  unfold add_supported_currency, assert_only_owner. step.
  by destruct (is_owner _ _).
Qed.

Lemma remove_supported_currency_run caller currency w :
  remove_supported_currency caller currency w =
  if is_owner (storage w) caller then
    Done tt (Build_World (write_supported_currencies currency false (storage w))
                         (ledger w) (trace w))
  else Panicked Unauthorized w.
Proof.
  unfold remove_supported_currency, assert_only_owner. step.
  by destruct (is_owner _ _).
Qed.

(** X2.  [add_supported_currency] called by the owner succeeds for every
    currency; afterwards [is_currency_supported] answers true for it and as
    before for every other currency, nothing else in the storage has
    changed, no token was called and no event emitted.  Adding a currency
    that is already supported is not an error, and adding the same currency
    a second time changes nothing any more. *)
Theorem add_supported_currency_adds caller currency w :
  is_owner (storage w) caller = true ->
  exists w',
    transaction (add_supported_currency caller currency) w = (inr tt, w')
    /\ is_currency_supported (storage w') currency = true
    /\ (forall other, other <> currency ->
          is_currency_supported (storage w') other
          = is_currency_supported (storage w) other)
    /\ outside_currencies (storage w') = outside_currencies (storage w)
    /\ ledger w' = ledger w /\ trace w' = trace w
    /\ transaction (add_supported_currency caller currency) w' = (inr tt, w').
Proof.
  intros Hown. eexists. split.
  { apply transaction_done. by rewrite add_supported_currency_run, Hown. }
  unfold is_currency_supported. simpl.
  split; [rewrite read_flag_insert; by case_decide|].
  split; [intros other Hne; rewrite read_flag_insert; by case_decide|].
  repeat (split; [done|]).
  apply transaction_done. rewrite add_supported_currency_run. simpl.
  unfold is_owner in *. simpl. rewrite Hown.
  unfold write_supported_currencies. simpl. by rewrite insert_insert_eq.
Qed.

(** X3.  [remove_supported_currency] called by the owner succeeds for every
    currency, supported or not; afterwards [is_currency_supported] answers
    false for it and as before for every other currency, nothing else in the
    storage has changed, and every [purchase_multiple_assets] that selects
    the currency is refused at a gate and leaves the world as it is. *)
Theorem remove_supported_currency_removes caller currency w :
  is_owner (storage w) caller = true ->
  exists w',
    transaction (remove_supported_currency caller currency) w = (inr tt, w')
    /\ is_currency_supported (storage w') currency = false
    /\ (forall other, other <> currency ->
          is_currency_supported (storage w') other
          = is_currency_supported (storage w) other)
    /\ outside_currencies (storage w') = outside_currencies (storage w)
    /\ ledger w' = ledger w /\ trace w' = trace w
    /\ forall buyer assets,
         transaction (purchase_multiple_assets buyer assets currency) w'
         = (inl (if Pausable_paused (pausable (storage w))
                 then SystemPaused else UnsupportedCurrency), w').
Proof.
  intros Hown. eexists. split.
  { apply transaction_done. by rewrite remove_supported_currency_run, Hown. }
  unfold is_currency_supported. simpl.
  split; [rewrite read_flag_insert; by case_decide|].
  split; [intros other Hne; rewrite read_flag_insert; by case_decide|].
  repeat (split; [done|]).
  intros buyer assets. unfold transaction.
  rewrite purchase_multiple_assets_run. simpl.
  rewrite read_flag_insert. case_decide; [|done].
  by destruct (Pausable_paused _).
Qed.

(** X4.  [register_digital_asset] called by the owner for an identifier
    that is not registered succeeds: the identifier gets the metadata hash,
    the seller as owner and the registered flag, every other identifier
    keeps its metadata, owner and flag, the policy is untouched, no token is
    called, and exactly one event, [AssetRegistered {asset_id, seller,
    price}], is emitted.  The price goes into the event only: the storage
    after the call does not depend on it. *)
Theorem register_digital_asset_registers caller asset_id seller price metadata_hash w :
  is_owner (storage w) caller = true ->
  read_flag (asset_registered (storage w)) asset_id = false ->
  exists w',
    transaction (register_digital_asset caller asset_id seller price metadata_hash) w
      = (inr tt, w')
    /\ (get_asset_metadata (storage w') asset_id = metadata_hash
        /\ read_slot (asset_ownership (storage w')) asset_id = seller
        /\ read_flag (asset_registered (storage w')) asset_id = true)
    /\ (forall other, other <> asset_id ->
          get_asset_metadata (storage w') other = get_asset_metadata (storage w) other
          /\ read_slot (asset_ownership (storage w')) other
             = read_slot (asset_ownership (storage w)) other
          /\ read_flag (asset_registered (storage w')) other
             = read_flag (asset_registered (storage w)) other)
    /\ policy (storage w') = policy (storage w)
    /\ ledger w' = ledger w
    /\ trace w' = trace w ++ [EEmit (AssetRegistered asset_id seller price)]
    /\ forall price',
         storage (snd (transaction
                         (register_digital_asset caller asset_id seller price'
                            metadata_hash) w))
         = storage w'.
Proof.
  intros Hown Hfresh. eexists. split.
  { apply transaction_done. by rewrite register_digital_asset_run, Hown, Hfresh. }
  unfold get_asset_metadata. simpl.
  split.
  { rewrite read_flag_insert, !read_slot_insert. by case_decide. }
  split.
  { intros other Hne. rewrite read_flag_insert, !read_slot_insert.
    by case_decide. }
  repeat (split; [done|]).
  intros price'. unfold transaction.
  by rewrite register_digital_asset_run, Hown, Hfresh.
Qed.

Lemma reassigned_frame buyer assets : forall s,
  frame (reassigned buyer assets s) = frame s.
Proof.
  unfold reassigned.
  induction assets as [|a rest IH]; intros s; simpl; [done|]. by rewrite IH.
Qed.

Lemma reassigned_other buyer assets : forall s id,
  ~ In id (map asset_id assets) ->
  read_slot (asset_ownership (reassigned buyer assets s)) id
  = read_slot (asset_ownership s) id.
Proof.
  unfold reassigned.
  induction assets as [|a rest IH]; intros s id Hnot; simpl in *; [done|].
  rewrite IH by tauto. simpl. rewrite read_slot_insert.
  case_decide; [tauto|done].
Qed.



(** X6.  What a purchase can change.  Whatever the batch and however the
    call ends, after the transaction the commission rate, the supported
    currencies, the metadata and registered flag of every asset, the [owner]
    field and the Ownable and Pausable state are as before, and so is the
    recorded owner of every asset the batch does not name. *)
Theorem purchase_multiple_assets_touches_batch_only caller assets payment_currency w :
  let w' := snd (transaction
                   (purchase_multiple_assets caller assets payment_currency) w) in
  frame (storage w') = frame (storage w)
  /\ forall id, ~ In id (map asset_id assets) ->
       read_slot (asset_ownership (storage w')) id
       = read_slot (asset_ownership (storage w)) id.
Proof.
  unfold transaction.
  destruct (purchase_multiple_assets _ _ _ w) as [[] w2|e w2] eqn:Hrun; simpl; [|done].
  apply purchase_multiple_assets_done in Hrun as (_ & _ & _ & _ & w1 & Hpay & Hown).
  apply process_payments_done in Hpay as (Hs & _).
  apply transfer_asset_ownership_done in Hown as ->. simpl. rewrite Hs. split.
  - apply reassigned_frame.
  - intros id Hnot. by apply reassigned_other.
Qed.

(** X7.  Validation comes before any movement of funds.  When a batch names
    an asset that is not registered, or its declared prices add up beyond the
    [u256] range, [purchase_multiple_assets] panics in the world it started
    in: no [transferFrom] has been requested and no event emitted by then.
    The error is the one of the first check that refuses the call. *)
Theorem invalid_batch_moves_no_funds caller assets payment_currency w :
  all_registered (storage w) assets = false \/ U256_MAX < sum_prices assets ->
  exists e,
    purchase_multiple_assets caller assets payment_currency w = Panicked e w
    /\ (e = SystemPaused \/ e = UnsupportedCurrency
        \/ e = UnregisteredAsset \/ e = ArithmeticOverflow).
Proof.
  intros Hbad. rewrite purchase_multiple_assets_run.
  destruct (Pausable_paused _); [eauto 6|].
  destruct (read_flag _ _); [|eauto 6].
  destruct (calculate_total_price assets w) as [t w0|e w0] eqn:Hprice.
  - unfold calculate_total_price in Hprice.
    apply calculate_total_price_from_done in Hprice as (_ & -> & Hmax & Hall).
    rewrite N.add_0_l in *. destruct Hbad as [Hbad|Hbad]; [congruence|].
    assert (sum_prices assets <= U256_MAX) by (apply Hmax; lia). lia.
  - unfold calculate_total_price in Hprice.
    apply calculate_total_price_from_errors in Hprice as (-> & [-> | ->]); eauto 6.
Qed.

(** X8.  The commission product is checked too.  When the gates are passed
    and the batch is registered with a total within the [u256] range, but
    the total times the stored commission rate exceeds that range, the
    settlement fails with ArithmeticOverflow before any transfer is
    requested, although the commission itself, a ten-thousandth of the
    product, would fit. *)
Theorem commission_product_overflows caller assets payment_currency w :
  Pausable_paused (pausable (storage w)) = false ->
  read_flag (supported_currencies (storage w)) payment_currency = true ->
  all_registered (storage w) assets = true ->
  sum_prices assets <= U256_MAX ->
  U256_MAX < sum_prices assets * commission_rate (storage w) ->
  purchase_multiple_assets caller assets payment_currency w
    = Panicked ArithmeticOverflow w
  /\ transaction (purchase_multiple_assets caller assets payment_currency) w
     = (inl ArithmeticOverflow, w).
Proof.
  intros Hpause Hcur Hreg Hsum Hprod.
  assert (purchase_multiple_assets caller assets payment_currency w
          = Panicked ArithmeticOverflow w) as Hrun.
  { rewrite purchase_multiple_assets_run, Hpause, Hcur.
    unfold calculate_total_price.
    rewrite calculate_total_price_from_ok by (rewrite ?N.add_0_l; done).
    rewrite N.add_0_l, process_payments_run.
    destruct (N.leb_spec (sum_prices assets * commission_rate (storage w)) U256_MAX);
      [lia|done]. }
  split; [done|]. by apply transaction_panicked in Hrun.
Qed.

Lemma dispatch_commission_rate c w :
  commission_rate (storage w) < 10000 ->
  commission_rate (storage (snd (transaction (dispatch c) w))) < 10000.
Proof.
  intros Hrate. unfold transaction.
  destruct (dispatch c w) as [[] w'|e w'] eqn:Hrun; simpl; [|done].
  destruct c as [caller assets cur|caller id sel pr hash|caller rate
                 |caller cur|caller cur]; simpl in Hrun.
  - pose proof (purchase_multiple_assets_frame caller assets cur w) as Hf.
    rewrite Hrun in Hf. simpl in Hf. unfold frame in Hf. congruence.
  - rewrite register_digital_asset_run in Hrun.
    destruct (is_owner _ _); [|done]. destruct (read_flag _ _); [done|].
    by injection Hrun as <-.
  - rewrite set_commission_rate_run in Hrun.
    destruct (is_owner _ _); [|done].
    destruct (N.ltb_spec rate 10000); [|done]. by injection Hrun as <-.
  - rewrite add_supported_currency_run in Hrun.
    destruct (is_owner _ _); [|done]. by injection Hrun as <-.
  - rewrite remove_supported_currency_run in Hrun.
    destruct (is_owner _ _); [|done]. by injection Hrun as <-.
Qed.

Lemma commission_of_le total_price rate :
  rate < 10000 -> commission_of total_price rate <= total_price.
Proof.
  intros Hrate. unfold commission_of.
  apply N.Div0.div_le_upper_bound. nia.
Qed.

(** X9.  The commission never reaches the total.  No transaction brings the
    stored commission rate to 10000 or above when it was below: the only
    write is the one of [set_commission_rate], behind its bound.  With such a
    rate, the commission a payment pass requests is at most the total price
    it was given. *)
Theorem commission_rate_stays_bounded w0 w :
  evolves w0 w ->
  commission_rate (storage w0) < 10000 ->
  commission_rate (storage w) < 10000
  /\ forall assets total_price currency buyer w',
       process_payments assets total_price currency buyer w = Done tt w' ->
       exists commission,
         commission <= total_price
         /\ trace w' = trace w ++
              payment_effects currency buyer (owner (storage w)) commission assets.
Proof.
  intros Hev Hrate.
  assert (commission_rate (storage w) < 10000) as Hw.
  { induction Hev as [|c w1 _ IH|l w1 _ IH]; [done| |done].
    by apply dispatch_commission_rate. }
  split; [done|]. intros assets total_price currency buyer w' Hpay.
  apply process_payments_done in Hpay as (_ & _ & Ht).
  eexists. split; [|exact Ht]. by apply commission_of_le.
Qed.

Lemma requested_app t1 t2 : requested (t1 ++ t2) = requested t1 + requested t2.
Proof.
  induction t1 as [|[c s r a|ev] t1 IH]; simpl; [done| |done].
  rewrite IH. lia.
Qed.

Lemma events_of_app t1 t2 : events_of (t1 ++ t2) = events_of t1 ++ events_of t2.
Proof. apply flat_map_app. Qed.

Lemma requested_payment_effects currency buyer treasury commission assets :
  requested (payment_effects currency buyer treasury commission assets)
  = commission + sum_prices assets.
Proof.
  unfold payment_effects. simpl. f_equal.
  induction assets as [|a rest IH]; simpl; [done|]. by rewrite IH.
Qed.

Lemma events_of_payment_effects currency buyer treasury commission assets :
  events_of (payment_effects currency buyer treasury commission assets)
  = purchased_events buyer assets.
Proof.
  unfold payment_effects, purchased_events. simpl.
  induction assets as [|a rest IH]; simpl; [done|]. by rewrite IH.
Qed.

Lemma payment_effects_from_buyer currency buyer treasury commission assets :
  Forall (fun e => match e with
                   | ECall c sender _ _ => c = currency /\ sender = buyer
                   | EEmit _ => True
                   end)
         (payment_effects currency buyer treasury commission assets).
Proof.
  unfold payment_effects. constructor; [done|].
  induction assets as [|a rest IH]; simpl; [done|].
  constructor; [done|]. by constructor.
Qed.

(** X10.  What the buyer is asked to pay.  In a settlement that goes
    through, every token call is a [transferFrom] in the selected currency
    with the buyer as sender, and the amounts add up to the sum of the
    declared prices plus the commission: the commission is charged on top of
    the prices, the sellers' transfers are not reduced by it. *)
Theorem buyer_pays_total_plus_commission caller assets payment_currency w w' :
  transaction (purchase_multiple_assets caller assets payment_currency) w
    = (inr tt, w') ->
  exists new,
    trace w' = trace w ++ new
    /\ requested new
       = sum_prices assets
         + commission_of (sum_prices assets) (commission_rate (storage w))
    /\ Forall (fun e => match e with
                        | ECall c sender _ _ => c = payment_currency /\ sender = caller
                        | EEmit _ => True
                        end) new.
Proof.
  unfold transaction.
  destruct (purchase_multiple_assets _ _ _ w) as [[] w2|] eqn:Hrun; [|done].
  intros [= <-]. apply purchase_multiple_assets_trace in Hrun.
  eexists. split; [exact Hrun|]. split.
  - rewrite requested_payment_effects. unfold commission_of. lia.
  - apply payment_effects_from_buyer.
Qed.

(** X11.  The event log.  Every transaction appends to the events emitted so
    far and never rewrites them.  A [purchase_multiple_assets] that goes
    through appends one [AssetPurchased {asset_id, buyer, seller, price}] per
    item, in batch order, with the caller as buyer and the seller and price
    the item declares; a [register_digital_asset] that goes through appends
    one [AssetRegistered {asset_id, seller, price}]; every other call, and
    every call that fails, appends nothing. *)
Theorem events_appended c w :
  events_of (trace (snd (transaction (dispatch c) w)))
  = events_of (trace w) ++
    match c, fst (transaction (dispatch c) w) with
    | CallPurchase caller assets _, inr _ => purchased_events caller assets
    | CallRegister _ asset_id seller price _, inr _ =>
        [AssetRegistered asset_id seller price]
    | _, _ => []
    end.
Proof.
  unfold transaction.
  destruct c as [caller assets cur|caller id sel pr hash|caller rate
                 |caller cur|caller cur]; simpl.
  - destruct (purchase_multiple_assets _ _ _ w) as [[] w'|e w'] eqn:Hrun; simpl;
      [|by rewrite app_nil_r].
    apply purchase_multiple_assets_trace in Hrun.
    by rewrite Hrun, events_of_app, events_of_payment_effects.
  - rewrite register_digital_asset_run.
    destruct (is_owner _ _); [|by rewrite app_nil_r].
    destruct (read_flag _ _); simpl; [by rewrite app_nil_r|].
    by rewrite events_of_app.
  - rewrite set_commission_rate_run.
    destruct (is_owner _ _); [|by rewrite app_nil_r].
    destruct (_ <? _); simpl; by rewrite app_nil_r.
  - rewrite add_supported_currency_run.
    destruct (is_owner _ _); simpl; by rewrite app_nil_r.
  - rewrite remove_supported_currency_run.
    destruct (is_owner _ _); simpl; by rewrite app_nil_r.
Qed.

(** X12.  No asset is sold twice in one batch.  When a batch names the same
    asset in two items and the later item declares a seller other than the
    buyer, the settlement never goes through: by the time the reassignment
    pass reaches the later item the registry records the buyer, so the
    re-check refuses it, if nothing else failed before.  Nothing of the call
    remains, transfers to the seller named twice included. *)
Theorem double_sale_refused caller pre a mid b post payment_currency w :
  asset_id a = asset_id b ->
  seller b <> caller ->
  exists e,
    purchase_failure e
    /\ transaction
         (purchase_multiple_assets caller (pre ++ a :: mid ++ b :: post)
            payment_currency) w
       = (inl e, w).
Proof.
  intros Hid Hseller. unfold transaction.
  destruct (purchase_multiple_assets _ _ _ w) as [[] w'|e w'] eqn:Hrun.
  - exfalso.
    apply purchase_multiple_assets_done in Hrun as (_ & _ & _ & _ & w1 & _ & Hown).
    replace (pre ++ a :: mid ++ b :: post) with ((pre ++ a :: mid) ++ b :: post)
      in Hown by (by rewrite <- app_assoc).
    destruct (transfer_asset_ownership_prefix _ _ _ _ _ Hown) as (w2 & Hpre & _).
    rewrite (transfer_asset_ownership_at _ _ _ _ _ _ Hpre) in Hown.
    apply transfer_asset_ownership_done in Hpre as ->. simpl in Hown.
    rewrite <- Hid, (reassigned_owner caller (pre ++ a :: mid) (storage w1) a) in Hown
      by (apply in_or_app; right; by left).
    destruct (N.eqb_spec caller (seller b)); [congruence|done].
  - exists e. split; [|done]. by eapply purchase_multiple_assets_panicked.
Qed.



Lemma all_registered_in s assets id :
  all_registered s assets = true ->
  In id (map asset_id assets) ->
  read_flag (asset_registered s) id = true.
Proof.
  induction assets as [|a rest IH]; simpl; [done|].
  intros Hall. apply andb_prop in Hall as [Ha Hrest].
  intros [<- | Hin]; [done | by apply IH].
Qed.

Lemma dispatch_registry_consistent c w :
  registry_consistent (storage w) ->
  registry_consistent (storage (snd (transaction (dispatch c) w))).
Proof.
  intros Hok. unfold transaction.
  destruct c as [caller assets cur|caller id' sel pr hash|caller rate
                 |caller cur|caller cur]; simpl.
  - destruct (purchase_multiple_assets _ _ _ w) as [[] w'|e w'] eqn:Hrun; simpl;
      [|done].
    apply purchase_multiple_assets_done in Hrun
      as (_ & _ & Hall & _ & w1 & Hpay & Hown).
    apply process_payments_done in Hpay as (Hs & _).
    apply transfer_asset_ownership_done in Hown as ->. simpl. rewrite Hs.
    pose proof (reassigned_frame caller assets (storage w)) as Hf.
    unfold frame in Hf. injection Hf as _ _ _ _ _ Hm Hr.
    intros id Hflag. rewrite Hr in Hflag. rewrite Hm.
    destruct (Hok id Hflag) as [Hmeta Howner]. split; [done|].
    rewrite reassigned_other; [done|].
    intros Hin. apply (all_registered_in _ _ _ Hall) in Hin. congruence.
  - rewrite register_digital_asset_run.
    destruct (is_owner _ _); [|done].
    destruct (read_flag _ id') eqn:Hreg'; simpl; [done|].
    intros id. simpl. rewrite read_flag_insert, !read_slot_insert.
    case_decide; [done|]. apply Hok.
  - rewrite set_commission_rate_run.
    destruct (is_owner _ _); [|done]. by destruct (_ <? _).
  - rewrite add_supported_currency_run. by destruct (is_owner _ _).
  - rewrite remove_supported_currency_run. by destruct (is_owner _ _).
Qed.

(** X14.  An identifier that was never registered has no record.  If every
    unregistered identifier has metadata zero and owner zero, as at
    deployment, this stays so under every sequence of transactions:
    [get_asset_metadata] answers zero for an identifier that is not
    registered, and a purchase cannot give an owner to an asset that does
    not exist. *)
Theorem unregistered_assets_stay_empty w0 w :
  evolves w0 w ->
  registry_consistent (storage w0) ->
  forall id, read_flag (asset_registered (storage w)) id = false ->
             get_asset_metadata (storage w) id = 0
             /\ read_slot (asset_ownership (storage w)) id = ZERO_ADDRESS.
Proof.
  intros Hev Hok.
  assert (registry_consistent (storage w)) as Hw.
  { induction Hev as [|c w1 _ IH|l w1 _ IH]; [done| |done].
    by apply dispatch_registry_consistent. }
  exact Hw.
Qed.

(** X15.  The empty batch.  [purchase_multiple_assets] does not refuse an
    empty batch: once the gates are passed it requests one [transferFrom] of
    amount zero from the caller to the address in the [owner] field and
    nothing else.  If the token accepts it the call returns with the storage
    unchanged and no event; if the token reverts, the call fails. *)
Theorem empty_batch_requests_zero_commission caller payment_currency w :
  Pausable_paused (pausable (storage w)) = false ->
  read_flag (supported_currencies (storage w)) payment_currency = true ->
  purchase_multiple_assets caller [] payment_currency w =
  match transferFrom payment_currency caller (owner (storage w)) 0 (ledger w) with
  | Some (_, l') =>
      Done tt (Build_World (storage w) l'
                 (trace w ++ [ECall payment_currency caller (owner (storage w)) 0]))
  | None =>
      Panicked TransferFailed
        (Build_World (storage w) (ledger w)
           (trace w ++ [ECall payment_currency caller (owner (storage w)) 0]))
  end.
Proof.
  intros Hpause Hcur.
  rewrite purchase_multiple_assets_run, Hpause, Hcur. simpl.
  rewrite process_payments_run. simpl. unfold call_transferFrom.
  by destruct (transferFrom _ _ _ _ _) as [[ok l']|].
Qed.

Lemma dispatch_components c w :
  ownable (storage (snd (transaction (dispatch c) w))) = ownable (storage w)
  /\ pausable (storage (snd (transaction (dispatch c) w))) = pausable (storage w).
Proof.
  unfold transaction.
  destruct c as [caller assets cur|caller id' sel pr hash|caller rate
                 |caller cur|caller cur]; simpl.
  - pose proof (purchase_multiple_assets_frame caller assets cur w) as Hf.
    destruct (purchase_multiple_assets _ _ _ w) as [[] w'|e w']; simpl in *; [|done].
    unfold frame in Hf. by injection Hf as -> ->.
  - rewrite register_digital_asset_run.
    destruct (is_owner _ _); [|done]. by destruct (read_flag _ _).
  - rewrite set_commission_rate_run.
    destruct (is_owner _ _); [|done]. by destruct (_ <? _).
  - rewrite add_supported_currency_run. by destruct (is_owner _ _).
  - rewrite remove_supported_currency_run. by destruct (is_owner _ _).
Qed.

(** X16.  The administrator and the pause flag are fixed.  The contract
    embeds the Ownable and Pausable components as storage and exposes none
    of their entry points, and none of its own entry points writes them:
    under every sequence of transactions the Ownable owner and the pause
    flag stay what they were, so the same callers pass the owner gate and
    the pause gate gives the same answer. *)
Theorem administrator_and_pause_never_change w0 w :
  evolves w0 w ->
  ownable (storage w) = ownable (storage w0)
  /\ pausable (storage w) = pausable (storage w0)
  /\ forall caller, is_owner (storage w) caller = is_owner (storage w0) caller.
Proof.
  intros Hev.
  assert (ownable (storage w) = ownable (storage w0)
          /\ pausable (storage w) = pausable (storage w0)) as [Ho Hp].
  { induction Hev as [|c w1 _ [IHo IHp]|l w1 _ IH]; [done| |done].
    destruct (dispatch_components c w1) as [-> ->]. done. }
  split; [done|]. split; [done|]. intros caller. unfold is_owner. by rewrite Ho.
Qed.



Lemma sum_prices_app xs ys : sum_prices (xs ++ ys) = sum_prices xs + sum_prices ys.
Proof.
  unfold sum_prices. induction xs as [|x xs IH]; simpl; [done|].
  rewrite IH. lia.
Qed.

(** X18.  Rounding of the commission in the payment pass.  When
    [process_payments] returns for two batches taken as one, its checked
    product of the total and the stored rate fitted the [u256] range, and
    so do the checked products for each batch alone.  The commission it
    requested, the product divided by 10000 and rounded down, is zero
    exactly when the product is below 10000, and is at least the sum of the
    commissions of the two batches alone and at most one unit more.  (Two
    batches that pass alone need not pass as one: the product of the merged
    total can exceed the range.) *)
Theorem merged_commission_bounds xs ys currency buyer w w' :
  process_payments (xs ++ ys) (sum_prices (xs ++ ys)) currency buyer w = Done tt w' ->
  exists product_xs product_ys commission,
    u256_mul (sum_prices xs) (commission_rate (storage w)) = inr product_xs
    /\ u256_mul (sum_prices ys) (commission_rate (storage w)) = inr product_ys
    /\ trace w' = trace w ++
         payment_effects currency buyer (owner (storage w)) commission (xs ++ ys)
    /\ (commission = 0
        <-> sum_prices (xs ++ ys) * commission_rate (storage w) < 10000)
    /\ product_xs / 10000 + product_ys / 10000 <= commission
    /\ commission <= product_xs / 10000 + product_ys / 10000 + 1.
Proof.
  intros Hpay. apply process_payments_done in Hpay as (_ & Hfit & Htrace).
  rewrite sum_prices_app in *.
  set (rate := commission_rate (storage w)) in *.
  set (a := sum_prices xs * rate). set (b := sum_prices ys * rate).
  assert ((sum_prices xs + sum_prices ys) * rate = a + b) as Hsum
    by (subst a b; lia).
  rewrite Hsum in *.
  exists a, b, ((a + b) / 10000).
  unfold u256_mul. fold a b.
  destruct (N.leb_spec a U256_MAX); [|lia].
  destruct (N.leb_spec b U256_MAX); [|lia].
  split; [done|]. split; [done|]. split; [done|].
  split; [by apply N.div_small_iff|].
  pose proof (N.Div0.mul_div_le a 10000) as Ha.
  pose proof (N.Div0.mul_div_le b 10000) as Hb.
  pose proof (N.mul_succ_div_gt a 10000 ltac:(done)) as Ha'.
  pose proof (N.mul_succ_div_gt b 10000 ltac:(done)) as Hb'.
  split.
  - apply N.div_le_lower_bound; [done|]. lia.
  - apply N.lt_succ_r. apply N.Div0.div_lt_upper_bound. lia.
Qed.

Lemma pay_seller_reverts_at currency buyer asset w :
  transferFrom currency buyer (seller asset) (price asset) (ledger w) = None ->
  pay_seller currency buyer asset w
  = Panicked TransferFailed
      (Build_World (storage w) (ledger w)
         (trace w ++ [ECall currency buyer (seller asset) (price asset)])).
Proof.
  intros Hnone. unfold pay_seller, bind, call_transferFrom. by rewrite Hnone.
Qed.

(** X19.  A token that reverts.  When the gates, the pricing pass and the
    commission product are passed and the token reverts on the transfer to
    the seller of some item, after accepting the commission and the
    transfers for the items before it, the settlement fails with
    TransferFailed.  At the panic the earlier transfers have been made and
    their events emitted, and the refused call is the last entry of the
    trace; the registry has not been touched.  After the transaction
    nothing of this remains. *)
Theorem reverted_seller_transfer_fails caller pre asset post payment_currency
    w ok w0 w1 :
  Pausable_paused (pausable (storage w)) = false ->
  read_flag (supported_currencies (storage w)) payment_currency = true ->
  all_registered (storage w) (pre ++ asset :: post) = true ->
  sum_prices (pre ++ asset :: post) <= U256_MAX ->
  sum_prices (pre ++ asset :: post) * commission_rate (storage w) <= U256_MAX ->
  call_transferFrom payment_currency caller (owner (storage w))
    (sum_prices (pre ++ asset :: post) * commission_rate (storage w) / 10000) w
    = Done ok w0 ->
  for_each (pay_seller payment_currency caller) pre w0 = Done tt w1 ->
  transferFrom payment_currency caller (seller asset) (price asset) (ledger w1) = None ->
  purchase_multiple_assets caller (pre ++ asset :: post) payment_currency w
    = Panicked TransferFailed
        (Build_World (storage w) (ledger w1)
           (trace w1 ++ [ECall payment_currency caller (seller asset) (price asset)]))
  /\ transaction
       (purchase_multiple_assets caller (pre ++ asset :: post) payment_currency) w
     = (inl TransferFailed, w).
Proof.
  intros Hpause Hcur Hreg Hsum Hprod Hcall Hpre Hnone.
  assert (storage w1 = storage w) as Hs.
  { apply call_transferFrom_done in Hcall as (Hs0 & _).
    apply pay_sellers_done in Hpre as (Hs1 & _). congruence. }
  assert (purchase_multiple_assets caller (pre ++ asset :: post) payment_currency w
          = Panicked TransferFailed
              (Build_World (storage w) (ledger w1)
                 (trace w1 ++ [ECall payment_currency caller (seller asset)
                                     (price asset)]))) as Hrun.
  { rewrite purchase_multiple_assets_run, Hpause, Hcur.
    unfold calculate_total_price.
    rewrite calculate_total_price_from_ok by (rewrite ?N.add_0_l; done).
    rewrite N.add_0_l, process_payments_run.
    destruct (N.leb_spec (sum_prices (pre ++ asset :: post)
                          * commission_rate (storage w)) U256_MAX); [|lia].
    rewrite Hcall, for_each_app, Hpre.
    change (for_each (pay_seller payment_currency caller) (asset :: post) w1)
      with (bind (pay_seller payment_currency caller asset)
              (fun _ => for_each (pay_seller payment_currency caller) post) w1).
    unfold bind at 1.
    by rewrite (pay_seller_reverts_at _ _ _ _ Hnone), Hs. }
  split; [done|]. by apply transaction_panicked in Hrun.
Qed.

(** X20.  The buyer names the price.  The contract stores no price and
    compares the batch's price and metadata hash with nothing.  For a
    registered asset, whoever declares its recorded owner as seller becomes
    its owner at any price they declare, zero included, whatever metadata
    hash the item carries, as soon as the marketplace is not paused, the
    currency is supported, the commission product fits and the token
    accepts the two transfers. *)
Theorem buyer_names_the_price caller id owner_of_id p h payment_currency
    w ok0 l0 ok1 l1 :
  let item := {| seller := owner_of_id; asset_id := id; price := p;
                 metadata_ipfs_hash := h |} in
  Pausable_paused (pausable (storage w)) = false ->
  read_flag (supported_currencies (storage w)) payment_currency = true ->
  read_flag (asset_registered (storage w)) id = true ->
  read_slot (asset_ownership (storage w)) id = owner_of_id ->
  p * commission_rate (storage w) <= U256_MAX ->
  p <= U256_MAX ->
  transferFrom payment_currency caller (owner (storage w))
    (commission_of p (commission_rate (storage w))) (ledger w) = Some (ok0, l0) ->
  transferFrom payment_currency caller owner_of_id p l0 = Some (ok1, l1) ->
  transaction (purchase_multiple_assets caller [item] payment_currency) w
  = (inr tt,
     Build_World (write_asset_ownership id caller (storage w)) l1
       (trace w ++
        payment_effects payment_currency caller (owner (storage w))
          (commission_of p (commission_rate (storage w))) [item])).
Proof.
  intros item Hpause Hcur Hreg Hown Hprod Hp Hfee Hpay.
  apply transaction_done.
  rewrite purchase_multiple_assets_run, Hpause, Hcur.
  unfold calculate_total_price.
  assert (sum_prices [item] = p) as Hsum by (unfold sum_prices; simpl; lia).
  rewrite calculate_total_price_from_ok;
    [|by simpl; rewrite Hreg|rewrite Hsum; lia].
  rewrite Hsum, N.add_0_l, process_payments_run.
  destruct (N.leb_spec (p * commission_rate (storage w)) U256_MAX); [|lia].
  unfold commission_of in *.
  unfold call_transferFrom at 1. rewrite Hfee.
  change (for_each (pay_seller payment_currency caller) [item])
    with (bind (pay_seller payment_currency caller item) (fun _ => ret tt)).
  unfold pay_seller. unfold bind, call_transferFrom, emit, ret. subst item. simpl.
  rewrite Hpay.
  unfold transfer_asset_ownership. simpl. unfold bind. rewrite reassign_run. simpl.
  apply N.eqb_eq in Hown. rewrite Hown. unfold ret, payment_effects.
  simpl. by rewrite <- !app_assoc.
Qed.

End Coverage.

(** * Instances of the further properties on the example market *)

Lemma admin_calls_need_owner_witness :
  dispatch (CallSetCommissionRate Fixture.MALLORY 1) (Fixture.world 0)
  = Panicked Unauthorized (Fixture.world 0)
  /\ transaction (dispatch (CallSetCommissionRate Fixture.MALLORY 1)) (Fixture.world 0)
     = (inl Unauthorized, Fixture.world 0).
Proof.
  apply (admin_calls_need_owner (CallSetCommissionRate Fixture.MALLORY 1)
           Fixture.MALLORY (Fixture.world 0)); reflexivity.
Defined.

Lemma add_supported_currency_adds_witness :
  exists w',
    transaction (add_supported_currency Fixture.ADMIN Fixture.DOGE) (Fixture.world 0)
      = (inr tt, w')
    /\ is_currency_supported (storage w') Fixture.DOGE = true.
Proof.
  destruct (add_supported_currency_adds Fixture.ADMIN Fixture.DOGE (Fixture.world 0))
    as (w' & Hrun & Hsup & _).
  - reflexivity.
  - exists w'. split; [exact Hrun | exact Hsup].
Defined.

Lemma remove_supported_currency_removes_witness :
  exists w',
    transaction (remove_supported_currency Fixture.ADMIN Fixture.STRK)
      (Fixture.world 1000) = (inr tt, w')
    /\ is_currency_supported (storage w') Fixture.STRK = false
    /\ transaction (purchase_multiple_assets Fixture.BUYER Fixture.batch Fixture.STRK) w'
       = (inl UnsupportedCurrency, w').
Proof.
  destruct (remove_supported_currency_removes Fixture.ADMIN Fixture.STRK
              (Fixture.world 1000))
    as (w' & Hrun & Hsup & _ & _ & _ & _ & Hrefused).
  - reflexivity.
  - exists w'. split; [exact Hrun|]. split; [exact Hsup|].
    exact (Hrefused Fixture.BUYER Fixture.batch).
Defined.

Lemma register_digital_asset_registers_witness :
  exists w',
    transaction (register_digital_asset Fixture.ADMIN 4 Fixture.ALICE 70 104)
      (Fixture.world 1000) = (inr tt, w')
    /\ get_asset_metadata (storage w') 4 = 104
    /\ trace w' = [EEmit (AssetRegistered 4 Fixture.ALICE 70)].
Proof.
  destruct (register_digital_asset_registers Fixture.ADMIN 4 Fixture.ALICE 70 104
              (Fixture.world 1000))
    as (w' & Hrun & (Hmeta & _) & _ & _ & _ & Htrace & _).
  - reflexivity.
  - reflexivity.
  - exists w'. split; [exact Hrun|]. split; [exact Hmeta | exact Htrace].
Defined.


Lemma invalid_batch_moves_no_funds_witness :
  exists e,
    purchase_multiple_assets Fixture.BUYER Fixture.ghost_batch Fixture.STRK
      (Fixture.world 1000) = Panicked e (Fixture.world 1000)
    /\ (e = SystemPaused \/ e = UnsupportedCurrency
        \/ e = UnregisteredAsset \/ e = ArithmeticOverflow).
Proof.
  apply invalid_batch_moves_no_funds. left. reflexivity.
Defined.

Lemma commission_product_overflows_witness :
  transaction (purchase_multiple_assets Fixture.BUYER Fixture.pricey_batch Fixture.STRK)
    (Fixture.world 1000)
  = (inl ArithmeticOverflow, Fixture.world 1000).
Proof.
  apply (commission_product_overflows Fixture.BUYER Fixture.pricey_batch Fixture.STRK
           (Fixture.world 1000)).
  - reflexivity.
  - reflexivity.
  - reflexivity.
  - vm_compute. discriminate.
  - vm_compute. reflexivity.
Defined.

Lemma commission_rate_stays_bounded_witness :
  commission_rate
    (storage (snd (transaction (dispatch (CallSetCommissionRate Fixture.ADMIN 9999))
                     (Fixture.world 0)))) < 10000.
Proof.
  refine (proj1 (commission_rate_stays_bounded (Fixture.world 0) _ _ _)).
  - apply evolves_call, evolves_refl.
  - vm_compute. reflexivity.
Defined.

Lemma buyer_pays_total_plus_commission_witness :
  exists new,
    trace Fixture.settled_world = trace (Fixture.world 1000) ++ new
    /\ requested new = 500 + 25.
Proof.
  destruct (buyer_pays_total_plus_commission Fixture.BUYER Fixture.batch Fixture.STRK
              (Fixture.world 1000) Fixture.settled_world)
    as (new & Htrace & Hsum & _).
  - vm_compute. reflexivity.
  - exists new. split; [exact Htrace | exact Hsum].
Defined.

Lemma double_sale_refused_witness :
  exists e,
    purchase_failure e
    /\ transaction
         (purchase_multiple_assets Fixture.BUYER Fixture.twice_batch Fixture.STRK)
         (Fixture.world 1000)
       = (inl e, Fixture.world 1000).
Proof.
  apply (double_sale_refused Fixture.BUYER [] (Fixture.item Fixture.ALICE 1 100) []
           (Fixture.item Fixture.ALICE 1 100) [] Fixture.STRK (Fixture.world 1000)).
  - reflexivity.
  - vm_compute. discriminate.
Defined.


Lemma unregistered_assets_stay_empty_witness :
  get_asset_metadata (storage Fixture.settled_world) 9 = 0
  /\ read_slot (asset_ownership (storage Fixture.settled_world)) 9 = ZERO_ADDRESS.
Proof.
  apply (unregistered_assets_stay_empty (Fixture.world 1000) Fixture.settled_world).
  - exact (evolves_call _ (CallPurchase Fixture.BUYER Fixture.batch Fixture.STRK) _
             (evolves_refl _)).
  - intros id. unfold read_flag, read_slot. simpl.
    destruct (decide (id = 1)) as [->|H1]; [discriminate|].
    destruct (decide (id = 2)) as [->|H2]; [discriminate|].
    destruct (decide (id = 3)) as [->|H3]; [discriminate|].
    rewrite !lookup_insert_ne, !lookup_singleton_ne by congruence.
    intros _. split; reflexivity.
  - vm_compute. reflexivity.
Defined.

Lemma empty_batch_requests_zero_commission_witness :
  trace (final (purchase_multiple_assets Fixture.BUYER [] Fixture.STRK
                  (Fixture.world 1000)))
  = [ECall Fixture.STRK Fixture.BUYER ZERO_ADDRESS 0].
Proof.
  rewrite (empty_batch_requests_zero_commission Fixture.BUYER Fixture.STRK
             (Fixture.world 1000) eq_refl eq_refl).
  reflexivity.
Defined.

Lemma administrator_and_pause_never_change_witness :
  ownable (storage Fixture.settled_world) = ownable (storage (Fixture.world 1000))
  /\ pausable (storage Fixture.settled_world) = pausable (storage (Fixture.world 1000)).
Proof.
  destruct (administrator_and_pause_never_change (Fixture.world 1000)
              Fixture.settled_world) as (Ho & Hp & _).
  - exact (evolves_call _ (CallPurchase Fixture.BUYER Fixture.batch Fixture.STRK) _
             (evolves_refl _)).
  - split; [exact Ho | exact Hp].
Defined.


Lemma reverted_seller_transfer_fails_witness :
  transaction (purchase_multiple_assets Fixture.BUYER Fixture.batch Fixture.STRK)
    (Fixture.world 300)
  = (inl TransferFailed, Fixture.world 300).
Proof.
  refine (proj2 (reverted_seller_transfer_fails Fixture.BUYER
                   [Fixture.item Fixture.ALICE 1 100] (Fixture.item Fixture.BOB 2 250)
                   [Fixture.item Fixture.CAROL 3 150] Fixture.STRK (Fixture.world 300)
                   true Fixture.after_commission Fixture.after_alice
                   _ _ _ _ _ _ _ _));
    vm_compute; (reflexivity || discriminate).
Defined.

(** A buyer without funds takes asset 1 from Alice for nothing. *)
Lemma buyer_names_the_price_witness :
  read_slot
    (asset_ownership
       (storage (snd (transaction
                        (purchase_multiple_assets Fixture.BUYER
                           [{| seller := Fixture.ALICE; asset_id := 1; price := 0;
                               metadata_ipfs_hash := 0 |}] Fixture.STRK)
                        (Fixture.world 0))))) 1
  = Fixture.BUYER.
Proof.
  rewrite (buyer_names_the_price Fixture.BUYER 1 Fixture.ALICE 0 0 Fixture.STRK
             (Fixture.world 0)
             true (<[(Fixture.STRK, 0) := 0]> (ledger (Fixture.world 0)))
             true (<[(Fixture.STRK, Fixture.ALICE) := 0]>
                     (<[(Fixture.STRK, Fixture.BUYER) := 0]>
                        (<[(Fixture.STRK, 0) := 0]> (ledger (Fixture.world 0))))));
    try (vm_compute; (reflexivity || discriminate)).
Defined.

(** Alice's item alone would cost a commission of 5, Bob's and Carol's
    together 20, the three as one batch 25. *)
Lemma merged_commission_bounds_witness :
  exists product_xs product_ys commission,
    u256_mul 100 500 = inr product_xs
    /\ u256_mul 400 500 = inr product_ys
    /\ product_xs / 10000 + product_ys / 10000 <= commission
    /\ commission <= product_xs / 10000 + product_ys / 10000 + 1.
Proof.
  destruct (merged_commission_bounds
              [Fixture.item Fixture.ALICE 1 100]
              [Fixture.item Fixture.BOB 2 250; Fixture.item Fixture.CAROL 3 150]
              Fixture.STRK Fixture.BUYER (Fixture.world 1000)
              (final (process_payments Fixture.batch (sum_prices Fixture.batch)
                        Fixture.STRK Fixture.BUYER (Fixture.world 1000))))
    as (px & py & c & Hx & Hy & _ & _ & Hlow & Hhigh).
  - vm_compute. reflexivity.
  - exists px, py, c. split; [exact Hx|]. split; [exact Hy|].
    split; [exact Hlow | exact Hhigh].
Defined.

(** Two items of 2^247 at rate 500: the product fits for each alone and
    not for the two together. *)
Example merged_product_can_overflow :
  u256_mul (2 ^ 247) 500 = inr (2 ^ 247 * 500)
  /\ u256_mul (2 ^ 247 + 2 ^ 247) 500 = inl ArithmeticOverflow.
Proof. split; vm_compute; reflexivity. Qed.
